(** * ff-conversion-openmm: FRCMOD, LAMMPS and Tinker parameter lines to OpenMM records

    A shallow embedding of the six Python sources:

    - [frcmod2omm.py], [lammps2omm.py], [tinker2omm.py]: the per-kind
      conversion functions;
    - [main.frcmod.py], [main.lammps.py], [main.tinker.py]: the drivers
      (argument check, file traversal, dispatch on the first token).

    Conventions of the embedding.

    - A Python [str] is a [string] (8-bit characters; the inputs are taken to
      be ASCII, so that slicing by character and by byte agree).
    - A function that prints and may raise is a computation in the monad [M]:
      the lines printed so far, and either the exception that ended the
      computation or its value.
    - The numeric builtins of the Python runtime ([float], [int], the float
      operators, [math.pi]) are an interface, the class [Runtime].  Theorems
      are stated for every implementation of the interface; two
      implementations are given, IEEE binary64 ([PrimFloat], what CPython
      runs) and exact rationals (the same expressions without rounding, on
      the binary64 value of [math.pi]).  The binary64 runtime reads a
      decimal literal as the float nearest to its exact value and knows
      [inf], [nan] and signed zeros; the exact runtime has only the decimal
      literals.
    - The text produced by [str.format] is kept structured: an [element] is
      the tag and the attribute list of the XML-like record, a number is kept
      as a number together with its format specification. *)

From Stdlib Require Import ZArith QArith String Ascii List Bool Lia.
From Stdlib Require Import Floats Uint63.
Import ListNotations.

Local Open Scope Z_scope.
Local Open Scope list_scope.

(* ================================================================== *)
(** * The Python runtime *)
(* ================================================================== *)

Module Py.

(** ** Strings *)

(** [str.isspace] on the ASCII range: TAB, LF, VT, FF, CR, FS, GS, RS, US
    and SPACE. *)
Definition is_space (c : ascii) : bool :=
  let n := nat_of_ascii c in
  ((9 <=? n)%nat && (n <=? 13)%nat) || ((28 <=? n)%nat && (n <=? 32)%nat).

Definition is_empty (s : string) : bool :=
  match s with EmptyString => true | String _ _ => false end.

(** [len(s)] *)
Definition len (s : string) : nat := String.length s.

(** [s[:n]] *)
Fixpoint take (n : nat) (s : string) : string :=
  match n, s with
  | S n', String c r => String c (take n' r)
  | _, _ => EmptyString
  end.

(** [s[n:]] *)
Fixpoint drop (n : nat) (s : string) : string :=
  match n, s with
  | S n', String _ r => drop n' r
  | _, _ => s
  end.

(** [s.replace(a, b)] for single characters *)
Fixpoint replace (a b : ascii) (s : string) : string :=
  match s with
  | EmptyString => EmptyString
  | String c r => String (if Ascii.eqb c a then b else c) (replace a b r)
  end.

(** [s.lstrip()] *)
Fixpoint lstrip (s : string) : string :=
  match s with
  | EmptyString => EmptyString
  | String c r => if is_space c then lstrip r else s
  end.

(** [s.rstrip()] *)
Fixpoint rstrip (s : string) : string :=
  match s with
  | EmptyString => EmptyString
  | String c r =>
      let r' := rstrip r in
      if is_space c && is_empty r' then EmptyString else String c r'
  end.

(** [s.strip()] *)
Definition strip (s : string) : string := rstrip (lstrip s).

(** [s.startswith(p)] *)
Fixpoint startswith (s p : string) : bool :=
  match p with
  | EmptyString => true
  | String a p' =>
      match s with
      | EmptyString => false
      | String b s' => Ascii.eqb a b && startswith s' p'
      end
  end.

Definition emit (acc : string) (l : list string) : list string :=
  if is_empty acc then l else acc :: l.

(** [s.split()]: the maximal runs of non-blank characters.  [acc] is the
    run being read. *)
Fixpoint split_from (acc : string) (s : string) : list string :=
  match s with
  | EmptyString => emit acc []
  | String c r =>
      if is_space c then emit acc (split_from EmptyString r)
      else split_from (acc ++ String c EmptyString)%string r
  end.

Definition split (s : string) : list string := split_from EmptyString s.

(** [s.split(sep)] for a one-character separator: empty fields are kept and
    the result is never empty. *)
Fixpoint split_on (sep : ascii) (s : string) : list string :=
  match s with
  | EmptyString => [EmptyString]
  | String c r =>
      if Ascii.eqb c sep then EmptyString :: split_on sep r
      else match split_on sep r with
           | h :: t => String c h :: t
           | [] => [String c EmptyString]
           end
  end.

Definition hyphen : ascii := "-"%char.
Definition blank : ascii := " "%char.

(** ** Decimal literals, as [float()] and [int()] read them *)

Definition digit_of (c : ascii) : option Z :=
  let n := nat_of_ascii c in
  if ((48 <=? n)%nat && (n <=? 57)%nat) then Some (Z.of_nat (n - 48)) else None.

(** Reads the leading digits of [s] after [acc]: the value, how many digits
    were read, and what is left. *)
Fixpoint digits (acc : Z) (s : string) : Z * nat * string :=
  match s with
  | EmptyString => (acc, O, s)
  | String c r =>
      match digit_of c with
      | Some d =>
          (* one underscore between two digits is skipped *)
          let r' :=
            match r with
            | String "_" (String c' _ as r1) =>
                match digit_of c' with Some _ => r1 | None => r end
            | _ => r
            end in
          let '(v, n, rest) := digits (10 * acc + d) r' in (v, S n, rest)
      | None => (acc, O, s)
      end
  end.

(** An optional sign: [true] for [-]. *)
Definition sign (s : string) : bool * string :=
  match s with
  | String "-" r => (true, r)
  | String "+" r => (false, r)
  | _ => (false, s)
  end.

Definition signed (neg : bool) (v : Z) : Z := if neg then - v else v.

(** [int(s)] on a decimal integer literal with optional surrounding blanks
    and sign. *)
Definition parse_int (s : string) : option Z :=
  let '(neg, r) := sign (strip s) in
  let '(v, n, rest) := digits 0 r in
  if (Nat.ltb 0 n) && is_empty rest then Some (signed neg v) else None.

(** The exponent part of a decimal literal, [e] or [E] and a signed integer. *)
Definition exponent (s : string) : option Z :=
  match s with
  | EmptyString => Some 0
  | String c r =>
      if Ascii.eqb c "e" || Ascii.eqb c "E" then
        let '(neg, r1) := sign r in
        let '(v, n, rest) := digits 0 r1 in
        if (Nat.ltb 0 n) && is_empty rest then Some (signed neg v) else None
      else None
  end.

(** A decimal literal [sign digits [. digits] [e exponent]] with at least one
    digit, as mantissa and power of ten: [m * 10 ^ e]. *)
Definition parse_decimal (s : string) : option (Z * Z) :=
  let '(neg, r) := sign (strip s) in
  let '(v1, n1, r1) := digits 0 r in
  let '(v2, n2, r2) :=
    match r1 with
    | String "." r' => digits v1 r'
    | _ => (v1, O, r1)
    end in
  if Nat.ltb 0 (n1 + n2) then
    match exponent r2 with
    | Some e => Some (signed neg v2, e - Z.of_nat n2)
    | None => None
    end
  else None.

(** ** Exceptions *)

Inductive exn : Type :=
| IndexError
| ValueError
| OverflowError
| ZeroDivisionError
| UnboundLocalError
| FileNotFoundError
| SystemExit (code : option Z).

(** ** The numeric builtins *)

Class Runtime (F : Type) : Type := {
  (** [float(s)]; [None] is [ValueError] *)
  float_of_string : string -> option F;
  (** [int(s)]; [None] is [ValueError] *)
  int_of_string : string -> option Z;
  (** [int(x)]: truncation toward zero *)
  int_of_float : F -> exn + Z;
  (** an [int] operand of a float operator *)
  float_of_int : Z -> F;
  (** the decimal literal [m * 10 ^ e] of the source text *)
  lit : Z -> Z -> F;
  fmul : F -> F -> F;
  (** [x / y] for [y] not zero *)
  fdiv : F -> F -> F;
  fis_zero : F -> bool;
  (** [x ** 2] *)
  fsquare : F -> F;
  (** [math.pi] *)
  pi : F;
  (** [math.pow(2, 1/6)] *)
  sixth_root_of_two : F
}.

(** ** Printed lines and the monad of printing, raising code *)

Section Effects.

Context {F : Type}.

(** An argument of [str.format]: a string, an [int], or a float with the
    format specification of its field (empty for a bare pair of braces). *)
Inductive value : Type :=
| VStr (s : string)
| VInt (z : Z)
| VNum (spec : string) (x : F).

(** The record a conversion function formats: tag and attributes in order. *)
Record element : Type := Element {
  tag : string;
  attrs : list (string * value)
}.

(** What one [print] call writes: the concatenation of some pieces, a
    formatted record, or the [repr] of a token list. *)
Inductive out_line : Type :=
| Line (parts : list value)
| Rec (e : element)
| ListRepr (l : list string).

Definition M (A : Type) : Type := list out_line * (exn + A).

Definition ret {A} (a : A) : M A := ([], inr a).

Definition raise {A} (e : exn) : M A := ([], inl e).

Definition bind {A B} (c : M A) (k : A -> M B) : M B :=
  match c with
  | (o, inl e) => (o, inl e)
  | (o, inr a) => let '(o', r) := k a in (o ++ o', r)
  end.

Definition print (l : out_line) : M unit := ([l], inr tt).

Definition stdout {A} (c : M A) : list out_line := fst c.

Definition outcome {A} (c : M A) : exn + A := snd c.

(** [open(name, 'r')] on a file system that maps a path to the lines of the
    file, each with its line break. *)
Definition open (fs : string -> option (list string)) (name : string)
  : M (list string) :=
  match fs name with
  | Some lines => ret lines
  | None => raise FileNotFoundError
  end.

(** [sys.exit()] *)
Definition sys_exit {A} (code : option Z) : M A := raise (SystemExit code).

(** The exit status of the interpreter: 0 at the end of the script and for
    [SystemExit] without a code, the code of [SystemExit] otherwise, 1 after
    an exception nobody caught. *)
Definition exit_status {A} (c : M A) : Z :=
  match outcome c with
  | inr _ => 0
  | inl (SystemExit None) => 0
  | inl (SystemExit (Some n)) => n
  | inl _ => 1
  end.

(** [for item in l: f(item)] *)
Fixpoint for_each {A} (f : string -> M A) (l : list string) : M unit :=
  match l with
  | [] => ret tt
  | item :: rest => bind (f item) (fun _ => for_each f rest)
  end.

(** [file.readline()]: the next line, or the empty string at the end. *)
Definition readline (file : list string) : string :=
  match file with
  | [] => EmptyString
  | line :: _ => line
  end.

(** What is left of the file after [readline]. *)
Definition after_readline (file : list string) : list string :=
  match file with
  | [] => file
  | _ :: rest => rest
  end.

(** [l[i]] *)
Definition index {A} (l : list A) (i : nat) : M A :=
  match nth_error l i with
  | Some a => ret a
  | None => raise IndexError
  end.

End Effects.

Arguments value : clear implicits.
Arguments element : clear implicits.
Arguments out_line : clear implicits.
Arguments M : clear implicits.

Declare Scope py_scope.
Delimit Scope py_scope with py.
Notation "x <- c ;; k" := (bind c (fun x => k))
  (at level 61, c at next level, right associativity) : py_scope.
Notation "c ;;; k" := (bind c (fun _ => k))
  (at level 61, right associativity) : py_scope.

Section Numbers.

Context {F : Type} {R : Runtime F}.

(** [float(s)] *)
Definition float (s : string) : M F F :=
  match float_of_string s with
  | Some x => ret x
  | None => raise ValueError
  end.

(** [int(s)] for a string [s] *)
Definition int (s : string) : M F Z :=
  match int_of_string s with
  | Some z => ret z
  | None => raise ValueError
  end.

(** [int(x)] for a float [x] *)
Definition int_f (x : F) : M F Z :=
  match int_of_float x with
  | inr z => ret z
  | inl e => raise e
  end.

(** [x / y] *)
Definition div (x y : F) : M F F :=
  if fis_zero y then raise ZeroDivisionError else ret (fdiv x y).

(** [math.radians(x)]: [x * (pi / 180)] *)
Definition radians (x : F) : F := fmul x (fdiv pi (float_of_int 180)).

End Numbers.

(** ** IEEE binary64 *)

Module Binary64.

(** The float nearest to the ratio [n / d], ties to even: the division of
    [SpecFloat] on the two integers as mantissas of exponent 0, which rounds
    the exact quotient once. *)
Definition of_ratio (n : Z) (d : positive) : PrimFloat.float :=
  match n with
  | Z0 => PrimFloat.zero
  | Zpos p =>
      SF2Prim (SFdiv prec emax (S754_finite false p 0) (S754_finite false d 0))
  | Zneg p =>
      SF2Prim (SFdiv prec emax (S754_finite true p 0) (S754_finite false d 0))
  end.

(** An [int] as a float: the nearest float, infinite beyond the largest
    float (where CPython raises [OverflowError]). *)
Definition of_Z (z : Z) : PrimFloat.float := of_ratio z 1.

(** The float nearest to [m * 10 ^ e]: one rounding of the exact value, as
    CPython reads a decimal literal. *)
Definition of_decimal (m e : Z) : PrimFloat.float :=
  if 0 <=? e then of_ratio (m * 10 ^ e) 1
  else of_ratio m (Z.to_pos (10 ^ (- e))).

(** [s.lower()] on the ASCII letters *)
Fixpoint lower (s : string) : string :=
  match s with
  | EmptyString => EmptyString
  | String c r =>
      let n := nat_of_ascii c in
      String (if ((65 <=? n)%nat && (n <=? 90)%nat) then ascii_of_nat (n + 32) else c)
             (lower r)
  end.

(** [float(s)]: [inf], [infinity] and [nan] in any case and with a sign, or
    a decimal literal; a zero keeps its sign. *)
Definition of_string (s : string) : option PrimFloat.float :=
  let '(neg, r) := sign (strip s) in
  let word := lower r in
  if String.eqb word "inf" || String.eqb word "infinity" then
    Some (if neg then PrimFloat.neg_infinity else PrimFloat.infinity)
  else if String.eqb word "nan" then Some PrimFloat.nan
  else
    match parse_decimal s with
    | Some (m, e) =>
        Some (if m =? 0 then (if neg then PrimFloat.neg_zero else PrimFloat.zero)
              else of_decimal m e)
    | None => None
    end.

Definition trunc (x : PrimFloat.float) : exn + Z :=
  match Prim2SF x with
  | S754_zero _ => inr 0
  | S754_infinity _ => inl OverflowError
  | S754_nan => inl ValueError
  | S754_finite s m e =>
      inr (signed s (if 0 <=? e then Zpos m * 2 ^ e else Z.shiftr (Zpos m) (- e)))
  end.

#[export] Instance runtime : Runtime PrimFloat.float := {
  float_of_string := of_string;
  int_of_string := parse_int;
  int_of_float := trunc;
  float_of_int := of_Z;
  lit := of_decimal;
  fmul := PrimFloat.mul;
  fdiv := PrimFloat.div;
  fis_zero x := PrimFloat.eqb x PrimFloat.zero;
  fsquare x := PrimFloat.mul x x;
  pi := 0x1.921fb54442d18p+1%float;
  sixth_root_of_two := of_decimal 1122462048309373 (-15)
}.

End Binary64.

(** ** Exact rationals, kept in lowest terms *)

Module Exact.

Definition of_decimal (m e : Z) : Q :=
  Qred (if 0 <=? e then Qmake (m * 10 ^ e) 1 else Qmake m (Z.to_pos (10 ^ (- e)))).

#[export] Instance runtime : Runtime Q := {
  float_of_string s :=
    match parse_decimal s with
    | Some (m, e) => Some (of_decimal m e)
    | None => None
    end;
  int_of_string := parse_int;
  int_of_float q := inr (Z.quot (Qnum q) (Zpos (Qden q)));
  float_of_int z := Qmake z 1;
  lit := of_decimal;
  fmul x y := Qred (Qmult x y);
  fdiv x y := Qred (Qdiv x y);
  fis_zero q := Qnum q =? 0;
  fsquare x := Qred (Qmult x x);
  pi := Qred (Qmake 0x1921fb54442d18 (2 ^ 51));
  sixth_root_of_two := of_decimal 1122462048309373 (-15)
}.

End Exact.

End Py.

Import Py.
Local Open Scope py_scope.
Local Open Scope string_scope.

(* ================================================================== *)
(** * frcmod2omm.py *)
(* ================================================================== *)

Module frcmod2omm.

Section Conversions.

Context {F : Type} {R : Runtime F}.

Definition kcal2kj : F := lit 4184 (-3).
Definition ang2nm : F := lit 1 (-1).

(** [_bond(line)]: identifiers in the first 5 columns, then [k] and [r]. *)
Definition _bond (line : string) : M F (element F) :=
  let atoms := split (replace hyphen blank (take 5 line)) in
  let params := split (drop 5 line) in
  p0 <- index params 0 ;; k <- float p0 ;;
  p1 <- index params 1 ;; r <- float p1 ;;
  omm_t1 <- index atoms 0 ;;
  omm_t2 <- index atoms 1 ;;
  let omm_k := fdiv (fmul (fmul (float_of_int 2) k) kcal2kj) (fmul ang2nm ang2nm) in
  let omm_r := fmul r ang2nm in
  let omm_out :=
    Element "Bond" [("type1", VStr omm_t1); ("type2", VStr omm_t2);
                    ("length", VNum "" omm_r); ("k", VNum "" omm_k)] in
  print (Rec omm_out) ;;;
  ret omm_out.

(** [_angle(line)]: identifiers in the first 8 columns, then [k] and [a]. *)
Definition _angle (line : string) : M F (element F) :=
  let atoms := split (replace hyphen blank (take 8 line)) in
  let params := split (drop 8 line) in
  p0 <- index params 0 ;; k <- float p0 ;;
  p1 <- index params 1 ;; a <- float p1 ;;
  omm_t1 <- index atoms 0 ;;
  omm_t2 <- index atoms 1 ;;
  omm_t3 <- index atoms 2 ;;
  let omm_k := fmul (fmul (float_of_int 2) k) kcal2kj in
  let omm_a := radians a in
  let omm_out :=
    Element "Angle" [("type1", VStr omm_t1); ("type2", VStr omm_t2);
                     ("type3", VStr omm_t3);
                     ("angle", VNum "" omm_a); ("k", VNum "" omm_k)] in
  print (Rec omm_out) ;;;
  ret omm_out.

(** [_dihedral(line)]: identifiers in the first 11 columns, then [idivf],
    [pk], [phase] and [pn]. *)
Definition _dihedral (line : string) : M F (element F) :=
  let atoms := split (replace hyphen blank (take 11 line)) in
  let params := split (drop 11 line) in
  p0 <- index params 0 ;; idivf <- float p0 ;;
  p1 <- index params 1 ;; pk <- float p1 ;;
  p2 <- index params 2 ;; phase <- float p2 ;;
  p3 <- index params 3 ;; pn <- float p3 ;;
  omm_t1 <- index atoms 0 ;;
  omm_t2 <- index atoms 1 ;;
  omm_t3 <- index atoms 2 ;;
  omm_t4 <- index atoms 3 ;;
  q <- div pk idivf ;;
  let omm_k := fmul q kcal2kj in
  let omm_phase := radians phase in
  omm_pn <- int_f pn ;;
  let omm_out :=
    Element "Proper" [("type1", VStr omm_t1); ("type2", VStr omm_t2);
                      ("type3", VStr omm_t3); ("type4", VStr omm_t4);
                      ("periodicity1", VInt omm_pn);
                      ("phase1", VNum "" omm_phase); ("k1", VNum "" omm_k)] in
  print (Rec omm_out) ;;;
  ret omm_out.

(** [_improper(line)]: identifiers in the first 11 columns, then [k],
    [phase] and [pn]; the third identifier is the out-of-plane atom. *)
Definition _improper (line : string) : M F (element F) :=
  let atoms := split (replace hyphen blank (take 11 line)) in
  let params := split (drop 11 line) in
  p0 <- index params 0 ;; k <- float p0 ;;
  p1 <- index params 1 ;; phase <- float p1 ;;
  p2 <- index params 2 ;; pn <- float p2 ;;
  omm_t1 <- index atoms 2 ;;
  omm_t2 <- index atoms 0 ;;
  omm_t3 <- index atoms 1 ;;
  omm_t4 <- index atoms 3 ;;
  let omm_k := fmul k kcal2kj in
  let omm_p := radians phase in
  omm_pn <- int_f pn ;;
  let omm_out :=
    Element "Improper" [("type1", VStr omm_t1); ("type2", VStr omm_t2);
                        ("type3", VStr omm_t3); ("type4", VStr omm_t4);
                        ("periodicity1", VInt omm_pn);
                        ("phase1", VNum "" omm_p); ("k1", VNum "" omm_k)] in
  print (Rec omm_out) ;;;
  ret omm_out.

(** [_nonbonding(line)]: atom type, [rmin/2] and [epsilon]. *)
Definition _nonbonding (line : string) : M F (element F) :=
  let llist := split line in
  let sqrt62 := sixth_root_of_two in
  atom_t1 <- index llist 0 ;;
  l1 <- index llist 1 ;; rmin2 <- float l1 ;;
  l2 <- index llist 2 ;; epsilon <- float l2 ;;
  let omm_sigma := fdiv (fmul (fmul ang2nm (float_of_int 2)) rmin2) sqrt62 in
  let omm_epsilon := fmul kcal2kj epsilon in
  let omm_out :=
    Element "Atom" [("type", VStr atom_t1); ("charge", VStr "XXXX");
                    ("sigma", VNum "" omm_sigma);
                    ("epsilon", VNum "" omm_epsilon)] in
  print (Rec omm_out) ;;;
  ret omm_out.

End Conversions.

End frcmod2omm.

(* ================================================================== *)
(** * lammps2omm.py *)
(* ================================================================== *)

Module lammps2omm.

(** ESC [ 9 0 m, ESC [ 3 3 m and ESC [ 0 m *)
Definition CGREY : string := String "027" "[90m".
Definition CYLW : string := String "027" "[33m".
Definition CEND : string := String "027" "[0m".

Section Conversions.

Context {F : Type} {R : Runtime F}.

Definition kcal2kj : F := lit 4184 (-3).
Definition ang2nm : F := lit 1 (-1).

(** [CGREY + s + CEND] as a printed line *)
Definition grey (s : string) : out_line F := Line [VStr (CGREY ++ s ++ CEND)].

(** [_bond(line)]: [bond_coeff id K r # a-b] *)
Definition _bond (line : string) : M F (element F) :=
  let llist := split line in
  l5 <- index llist 5 ;;
  let atoms := split_on hyphen l5 in
  l2 <- index llist 2 ;; k <- float l2 ;;
  l3 <- index llist 3 ;; r <- float l3 ;;
  let omm_k := fdiv (fmul (fmul k (float_of_int 2)) kcal2kj) (fmul ang2nm ang2nm) in
  let omm_r := fmul r ang2nm in
  a0 <- index atoms 0 ;;
  a1 <- index atoms 1 ;;
  let omm_out :=
    Element "Bond" [("type1", VStr a0); ("type2", VStr a1);
                    ("length", VNum "" omm_r); ("k", VNum "" omm_k)] in
  print (Rec omm_out) ;;;
  ret omm_out.

(** [_angle(line)]: [angle_coeff id K a # a-b-c] *)
Definition _angle (line : string) : M F (element F) :=
  let llist := split line in
  l5 <- index llist 5 ;;
  let atoms := split_on hyphen l5 in
  l2 <- index llist 2 ;; k <- float l2 ;;
  l3 <- index llist 3 ;; a <- float l3 ;;
  omm_t1 <- index atoms 0 ;;
  omm_t2 <- index atoms 1 ;;
  omm_t3 <- index atoms 2 ;;
  let omm_k := fmul (fmul (float_of_int 2) k) kcal2kj in
  let omm_a := radians a in
  let omm_out :=
    Element "Angle" [("type1", VStr omm_t1); ("type2", VStr omm_t2);
                     ("type3", VStr omm_t3);
                     ("angle", VNum "" omm_a); ("k", VNum "" omm_k)] in
  print (Rec omm_out) ;;;
  ret omm_out.

(** [_dihedral(line)]: [dihedral_coeff id K n d w # a-b-c-d]; [n] and [d]
    are read with [int]. *)
Definition _dihedral (line : string) : M F (element F) :=
  let llist := split line in
  l7 <- index llist 7 ;;
  let atoms := split_on hyphen l7 in
  l2 <- index llist 2 ;; k <- float l2 ;;
  l3 <- index llist 3 ;; periodicity <- int l3 ;;
  l4 <- index llist 4 ;; phaseoffset <- int l4 ;;
  omm_t1 <- index atoms 0 ;;
  omm_t2 <- index atoms 1 ;;
  omm_t3 <- index atoms 2 ;;
  omm_t4 <- index atoms 3 ;;
  let omm_k := fmul k kcal2kj in
  let omm_periodicity := periodicity in
  let omm_phaseoffset := radians (float_of_int phaseoffset) in
  let omm_out :=
    Element "Proper" [("type1", VStr omm_t1); ("type2", VStr omm_t2);
                      ("type3", VStr omm_t3); ("type4", VStr omm_t4);
                      ("periodicity1", VInt omm_periodicity);
                      ("phase1", VNum "" omm_phaseoffset);
                      ("k1", VNum "" omm_k)] in
  print (Rec omm_out) ;;;
  ret omm_out.

(** The record of a same-type [lj] pair. *)
Definition atom_record (name : string) (sigma epsilon : F) : element F :=
  Element "Atom" [("type", VStr name); ("charge", VStr "XXXX");
                  ("sigma", VNum "" sigma); ("epsilon", VNum "" epsilon)].

(** The placeholder of a same-type [buck] pair: both values are the text
    [0.0] of the template. *)
Definition buck_record (name : string) : element F :=
  Element "Atom" [("type", VStr name); ("charge", VStr "XXXX");
                  ("sigma", VStr "0.0"); ("epsilon", VStr "0.0")].

(** The yellow annotation of a mixed [lj] pair. *)
Definition annotation (names : string) (sigma epsilon : F) : out_line F :=
  Line [VStr CYLW; VStr "    "; VStr names;
        VStr "   omm_sigma="; VNum "" sigma;
        VStr "   omm_epsilon="; VNum "" epsilon; VStr CEND].

(** What [_nonbonding] returns: the formatted record of the first branch, or
    the empty string. *)
Inductive returned : Type :=
| Formatted (e : element F)
| Empty.

(** [_nonbonding(line)]: [pair_coeff i j style epsilon sigma # a-b].  The
    style [llist[3]] is read once, before the conditions that test it: one of
    the first two conditions always reads it, and it cannot be missing where
    [llist[5]] was read. *)
Definition _nonbonding (line : string) : M F returned :=
  let llist := split line in
  atom_type1 <- index llist 1 ;;
  atom_type2 <- index llist 2 ;;
  l4 <- index llist 4 ;; epsilon <- float l4 ;;
  l5 <- index llist 5 ;; sigma <- float l5 ;;
  let omm_sigma := fmul ang2nm sigma in
  let omm_epsilon := fmul kcal2kj epsilon in
  l3 <- index llist 3 ;;
  omm_out <-
    (if String.eqb atom_type1 atom_type2 && startswith l3 "lj" then
       l7 <- index llist 7 ;;
       atom_type2_name <- index (split_on hyphen l7) 1 ;;
       let omm_out := atom_record atom_type2_name omm_sigma omm_epsilon in
       print (Rec omm_out) ;;;
       ret (Formatted omm_out)
     else if negb (String.eqb atom_type1 atom_type2) && startswith l3 "lj" then
       print (grey (strip line)) ;;;
       l7 <- index llist 7 ;;
       print (annotation l7 omm_sigma omm_epsilon) ;;;
       ret Empty
     else
       print (grey (strip line)) ;;;
       ret Empty) ;;
  (if String.eqb atom_type1 atom_type2 && startswith l3 "buck" then
     l8 <- index llist 8 ;;
     atom_type2_name <- index (split_on hyphen l8) 1 ;;
     let omm_buck := buck_record atom_type2_name in
     print (Rec omm_buck)
   else ret tt) ;;;
  ret omm_out.

End Conversions.

Arguments returned : clear implicits.

End lammps2omm.

(* ================================================================== *)
(** * tinker2omm.py *)
(* ================================================================== *)

Module tinker2omm.

Section Conversions.

Context {F : Type} {R : Runtime F}.

Definition radian : F := lit 572957795130 (-10).

(** [180/pi] *)
Definition deg_per_rad : F := fdiv (float_of_int 180) pi.

(** [_vdw(llist)] *)
Definition _vdw (llist : list string) : M F (element F) :=
  atom_class <- index llist 1 ;;
  l2 <- index llist 2 ;; x2 <- float l2 ;;
  let sigma := fmul x2 (lit 1 (-1)) in
  l3 <- index llist 3 ;; x3 <- float l3 ;;
  let epsilon := fmul x3 (lit 4184 (-3)) in
  reduction <-
    (if Nat.eqb (length llist) 5 then l4 <- index llist 4 ;; ret (VStr l4)
     else ret (VNum "" (lit 100 (-2)))) ;;
  ret (Element "Vdw" [("class", VStr atom_class); ("sigma", VNum ".4f" sigma);
                      ("epsilon", VNum ".6f" epsilon);
                      ("reduction", reduction)]).

(** [_bond(llist)] *)
Definition _bond (llist : list string) : M F (element F) :=
  atom_class1 <- index llist 1 ;;
  atom_class2 <- index llist 2 ;;
  l3 <- index llist 3 ;; x3 <- float l3 ;;
  let k := fdiv (fmul x3 (lit 4184 (-3))) (lit 1 (-2)) in
  l4 <- index llist 4 ;; x4 <- float l4 ;;
  let bond_length := fmul x4 (lit 1 (-1)) in
  ret (Element "Bond" [("class1", VStr atom_class1); ("class2", VStr atom_class2);
                       ("length", VNum ".6f" bond_length); ("k", VNum ".2f" k)]).

(** The constant of an angle record: [float(llist[4]) * 4.184/(180/pi)**2]. *)
Definition angle_k (x : F) : F :=
  fdiv (fmul x (lit 4184 (-3))) (fsquare deg_per_rad).

(** [_angle(llist)]: one, two or three angle values for 6, 8 or 9 tokens;
    any other count prints a message and then reads the unassigned
    [omm_angle]. *)
Definition _angle (llist : list string) : M F (element F) :=
  if Nat.eqb (length llist) 6 then
    atom_class1 <- index llist 1 ;;
    atom_class2 <- index llist 2 ;;
    atom_class3 <- index llist 3 ;;
    l4 <- index llist 4 ;; x4 <- float l4 ;;
    let k := angle_k x4 in
    angle <- index llist 5 ;;
    ret (Element "Angle" [("class1", VStr atom_class1); ("class2", VStr atom_class2);
                          ("class3", VStr atom_class3); ("k", VNum ".9e" k);
                          ("angle1", VStr angle)])
  else if Nat.eqb (length llist) 8 then
    atom_class1 <- index llist 1 ;;
    atom_class2 <- index llist 2 ;;
    atom_class3 <- index llist 3 ;;
    l4 <- index llist 4 ;; x4 <- float l4 ;;
    let k := angle_k x4 in
    angle1 <- index llist 5 ;;
    angle2 <- index llist 6 ;;
    ret (Element "Angle" [("class1", VStr atom_class1); ("class2", VStr atom_class2);
                          ("class3", VStr atom_class3); ("k", VNum ".9e" k);
                          ("angle1", VStr angle1); ("angle2", VStr angle2)])
  else if Nat.eqb (length llist) 9 then
    atom_class1 <- index llist 1 ;;
    atom_class2 <- index llist 2 ;;
    atom_class3 <- index llist 3 ;;
    l4 <- index llist 4 ;; x4 <- float l4 ;;
    let k := angle_k x4 in
    angle1 <- index llist 5 ;;
    angle2 <- index llist 6 ;;
    angle3 <- index llist 7 ;;
    ret (Element "Angle" [("class1", VStr atom_class1); ("class2", VStr atom_class2);
                          ("class3", VStr atom_class3); ("k", VNum ".9e" k);
                          ("angle1", VStr angle1); ("angle2", VStr angle2);
                          ("angle3", VStr angle3)])
  else
    print (Line [VStr "something wrong with AMOEBA angles!"]) ;;;
    print (ListRepr llist) ;;;
    raise UnboundLocalError.

(** [_strbend(llist)] *)
Definition _strbend (llist : list string) : M F (element F) :=
  atom_class1 <- index llist 1 ;;
  atom_class2 <- index llist 2 ;;
  atom_class3 <- index llist 3 ;;
  let c := fdiv (fmul (lit 4184 (-3)) (float_of_int 10)) deg_per_rad in
  l4 <- index llist 4 ;; x4 <- float l4 ;;
  let k1 := fmul x4 c in
  l5 <- index llist 5 ;; x5 <- float l5 ;;
  let k2 := fmul x5 c in
  ret (Element "StretchBend"
         [("class1", VStr atom_class1); ("class2", VStr atom_class2);
          ("class3", VStr atom_class3);
          ("k1", VNum ".9e" k1); ("k2", VNum ".9e" k2)]).

(** [4.184/2] and [pi/180] *)
Definition half_kcal2kj : F := fdiv (lit 4184 (-3)) (float_of_int 2).
Definition rad_per_deg : F := fdiv pi (float_of_int 180).

(** [_torsion(llist)]: three terms [(k, phase, periodicity)]; the
    periodicities are the tokens themselves. *)
Definition _torsion (llist : list string) : M F (element F) :=
  atom_class1 <- index llist 1 ;;
  atom_class2 <- index llist 2 ;;
  atom_class3 <- index llist 3 ;;
  atom_class4 <- index llist 4 ;;
  l5 <- index llist 5 ;; x5 <- float l5 ;;
  let k1 := fmul x5 half_kcal2kj in
  l6 <- index llist 6 ;; x6 <- float l6 ;;
  let phase1 := fmul x6 rad_per_deg in
  periodicity1 <- index llist 7 ;;
  l8 <- index llist 8 ;; x8 <- float l8 ;;
  let k2 := fmul x8 half_kcal2kj in
  l9 <- index llist 9 ;; x9 <- float l9 ;;
  let phase2 := fmul x9 rad_per_deg in
  periodicity2 <- index llist 10 ;;
  l11 <- index llist 11 ;; x11 <- float l11 ;;
  let k3 := fmul x11 half_kcal2kj in
  l12 <- index llist 12 ;; x12 <- float l12 ;;
  let phase3 := fmul x12 rad_per_deg in
  periodicity3 <- index llist 13 ;;
  ret (Element "Proper"
         [("class1", VStr atom_class1); ("class2", VStr atom_class2);
          ("class3", VStr atom_class3); ("class4", VStr atom_class4);
          ("k1", VNum ".6f" k1); ("phase1", VNum ".12f" phase1);
          ("periodicity1", VStr periodicity1);
          ("k2", VNum ".6f" k2); ("phase2", VNum ".12f" phase2);
          ("periodicity2", VStr periodicity2);
          ("k3", VNum ".6f" k3); ("phase3", VNum ".12f" phase3);
          ("periodicity3", VStr periodicity3)]).

(** [_polarize(llist)]: zero to three group identifiers after the damping
    factor. *)
Definition _polarize (llist : list string) : M F (element F) :=
  atom_class1 <- index llist 1 ;;
  l2 <- index llist 2 ;; x2 <- float l2 ;;
  let polarizability := fmul x2 (lit 1 (-3)) in
  thole_damping_factor <- index llist 3 ;;
  let polarizable_groups := skipn 4 llist in
  let head := [("type", VStr atom_class1);
               ("polarizability", VNum ".6f" polarizability);
               ("thole", VStr thole_damping_factor)] in
  if Nat.eqb (length polarizable_groups) 0 then
    ret (Element "Polarize" head)
  else if Nat.eqb (length polarizable_groups) 1 then
    g0 <- index polarizable_groups 0 ;;
    ret (Element "Polarize" (head ++ [("pgrp1", VStr g0)]))
  else if Nat.eqb (length llist) 6 then
    g0 <- index polarizable_groups 0 ;;
    g1 <- index polarizable_groups 1 ;;
    ret (Element "Polarize" (head ++ [("pgrp1", VStr g0); ("pgrp2", VStr g1)]))
  else if Nat.eqb (length llist) 7 then
    g0 <- index polarizable_groups 0 ;;
    g1 <- index polarizable_groups 1 ;;
    g2 <- index polarizable_groups 2 ;;
    ret (Element "Polarize"
           (head ++ [("pgrp1", VStr g0); ("pgrp2", VStr g1); ("pgrp3", VStr g2)]))
  else
    print (Line [VStr "error in polarize parameters"]) ;;;
    print (ListRepr llist) ;;;
    raise UnboundLocalError.

Definition bohr : F := lit 52917720859 (-11).

(** [x * bohr*0.1] *)
Definition dipole (x : F) : F := fmul (fmul x bohr) (lit 1 (-1)).

(** [x * 0.01*bohr*bohr/3.0] *)
Definition quadrupole (x : F) : F :=
  fdiv (fmul (fmul (fmul x (lit 1 (-2))) bohr) bohr) (lit 30 (-1)).

(** The charge, the three dipole and the six quadrupole components, read from
    position [i] on in the order of the assignments of [_multipole]: the two
    branches differ only in that position. *)
Definition moments (llist : list string) (i : nat) : M F (list (string * value F)) :=
  l0 <- index llist i ;; c0 <- float l0 ;;
  l1 <- index llist (i + 1) ;; x1 <- float l1 ;;
  l2 <- index llist (i + 2) ;; x2 <- float l2 ;;
  l3 <- index llist (i + 3) ;; x3 <- float l3 ;;
  l4 <- index llist (i + 4) ;; x4 <- float l4 ;;
  l5 <- index llist (i + 5) ;; x5 <- float l5 ;;
  l6 <- index llist (i + 6) ;; x6 <- float l6 ;;
  l7 <- index llist (i + 7) ;; x7 <- float l7 ;;
  l8 <- index llist (i + 8) ;; x8 <- float l8 ;;
  l9 <- index llist (i + 9) ;; x9 <- float l9 ;;
  ret [("c0", VNum ".6f" c0);
       ("d1", VNum ".12e" (dipole x1)); ("d2", VNum ".12e" (dipole x2));
       ("d3", VNum ".12e" (dipole x3));
       ("q11", VNum ".12e" (quadrupole x4)); ("q21", VNum ".12e" (quadrupole x5));
       ("q22", VNum ".12e" (quadrupole x6)); ("q31", VNum ".12e" (quadrupole x7));
       ("q32", VNum ".12e" (quadrupole x8)); ("q33", VNum ".12e" (quadrupole x9))].

(** [_multipole(llist)]: 14 tokens for the frame [kz kx], 15 for
    [kz kx ky]; with any other count no branch assigns [omm_multipole] and
    the [return] reads it unassigned. *)
Definition _multipole (llist : list string) : M F (element F) :=
  if Nat.eqb (length llist) 14 then
    atom <- index llist 1 ;;
    kz <- index llist 2 ;;
    kx <- index llist 3 ;;
    ms <- moments llist 4 ;;
    ret (Element "Multipole"
           ([("type", VStr atom); ("kz", VStr kz); ("kx", VStr kx)] ++ ms))
  else if Nat.eqb (length llist) 15 then
    atom <- index llist 1 ;;
    kz <- index llist 2 ;;
    kx <- index llist 3 ;;
    ky <- index llist 4 ;;
    ms <- moments llist 5 ;;
    ret (Element "Multipole"
           ([("type", VStr atom); ("kz", VStr kz); ("kx", VStr kx);
             ("ky", VStr ky)] ++ ms))
  else raise UnboundLocalError.

(** [_opbend(llist)] *)
Definition _opbend (llist : list string) : M F (element F) :=
  atom_class1 <- index llist 1 ;;
  atom_class2 <- index llist 2 ;;
  atom_class3 <- index llist 3 ;;
  atom_class4 <- index llist 4 ;;
  let radian2 := fdiv (lit 4184 (-3)) (fmul radian radian) in
  l5 <- index llist 5 ;; x5 <- float l5 ;;
  let k := fmul x5 radian2 in
  ret (Element "Angle"
         [("class1", VStr atom_class1); ("class2", VStr atom_class2);
          ("class3", VStr atom_class3); ("class4", VStr atom_class4);
          ("k", VNum ".9e" k)]).

(** [_pitors(llist)] *)
Definition _pitors (llist : list string) : M F (element F) :=
  let piTorsionUnit := lit 10 (-1) in
  let conversion := fmul (lit 4184 (-3)) piTorsionUnit in
  atom_class1 <- index llist 1 ;;
  atom_class2 <- index llist 2 ;;
  l3 <- index llist 3 ;; x3 <- float l3 ;;
  let k := fmul x3 conversion in
  ret (Element "PiTorsion"
         [("class1", VStr atom_class1); ("class2", VStr atom_class2);
          ("k", VNum ".4f" k)]).

End Conversions.

End tinker2omm.

(* ================================================================== *)
(** * main.tinker.py *)
(* ================================================================== *)

Module main_tinker.

Definition CGREY : string := String "027" "[90m".
Definition CEND : string := String "027" "[0m".

Section Script.

Context {F : Type} {R : Runtime F}.

(** [print(f(llist))] *)
Definition print_record (c : M F (element F)) : M F unit :=
  r <- c ;; print (Rec r).

(** The skipped line in grey. *)
Definition skipping (line : string) : out_line F :=
  Line [VStr (CGREY ++ "skipping line:  " ++ strip line ++ CEND)].

(** [len(line_in_list) < 3 or line_in_list[0].startswith('#')] *)
Definition skipped (line_in_list : list string) : bool :=
  (length line_in_list <? 3)%nat || startswith (nth 0 line_in_list "") "#".

(** The branch of the [if]/[elif] chain that reads further lines: reached
    when no earlier condition holds and the first token starts with
    [multipole]. *)
Definition is_multipole (line_in_list : list string) : bool :=
  let first := nth 0 line_in_list "" in
  negb (skipped line_in_list)
  && negb (startswith first "bond") && negb (startswith first "angle")
  && negb (startswith first "strbnd") && negb (startswith first "torsion")
  && negb (startswith first "vdw") && negb (startswith first "opbend")
  && negb (startswith first "pitors") && startswith first "multipole".

(** [line_in_list + dipoles + multipoles1 + multipoles2 + multipoles3], the
    last four read by [file.readline().strip().split()] one after the other. *)
Definition multipoles_list (line_in_list : list string) (file : list string)
  : list string :=
  let dipoles := split (strip (readline file)) in
  let file1 := after_readline file in
  let multipoles1 := split (strip (readline file1)) in
  let file2 := after_readline file1 in
  let multipoles2 := split (strip (readline file2)) in
  let file3 := after_readline file2 in
  let multipoles3 := split (strip (readline file3)) in
  (line_in_list ++ dipoles ++ multipoles1 ++ multipoles2 ++ multipoles3)%list.

(** The file after the four [readline] calls. *)
Definition after_multipole (file : list string) : list string :=
  after_readline (after_readline (after_readline (after_readline file))).

(** One turn of [for line in file]: [file] is what follows [line]. *)
Definition body (line : string) (file : list string) : M F unit :=
  let line_in_list := split (strip line) in
  let first := nth 0 line_in_list "" in
  if skipped line_in_list then ret tt
  else if startswith first "bond" then
    print_record (tinker2omm._bond line_in_list)
  else if startswith first "angle" then
    print_record (tinker2omm._angle line_in_list)
  else if startswith first "strbnd" then
    print_record (tinker2omm._strbend line_in_list)
  else if startswith first "torsion" then
    print_record (tinker2omm._torsion line_in_list)
  else if startswith first "vdw" then
    print_record (tinker2omm._vdw line_in_list)
  else if startswith first "opbend" then
    print_record (tinker2omm._opbend line_in_list)
  else if startswith first "pitors" then
    print_record (tinker2omm._pitors line_in_list)
  else if startswith first "multipole" then
    print_record (tinker2omm._multipole (multipoles_list line_in_list file))
  else if startswith first "polarize" then
    print_record (tinker2omm._polarize line_in_list)
  else if startswith first "opbend" then
    print_record (tinker2omm._opbend line_in_list)
  else
    print (skipping line).

(** Where the iteration resumes after that turn. *)
Definition resume (line : string) (file : list string) : list string :=
  if is_multipole (split (strip line)) then after_multipole file else file.

(** [for line in file: ...]: each turn is [body], and the next turn starts
    where the [readline] calls of the turn, if any, left the file. *)
Fixpoint loop (file : list string) : M F unit :=
  match file with
  | [] => ret tt
  | line :: rest => body line rest ;;; loop (resume line rest)
  end.

(** The script: [argv] is [sys.argv], the script path and its arguments. *)
Definition main (fs : string -> option (list string)) (argv : list string)
  : M F unit :=
  input_file <-
    (if Nat.eqb (length argv) 2 then index argv 1
     else
       print (Line [VStr "No AMOEBA Force Field file specified!"]) ;;;
       print (Line [VStr "USAGE: script.py tinker-parameter-file.prm"]) ;;;
       sys_exit None) ;;
  file <- open fs input_file ;;
  loop file.

End Script.

End main_tinker.

(* ================================================================== *)
(** * main.lammps.py *)
(* ================================================================== *)

Module main_lammps.

Definition CGREY : string := String "027" "[90m".
Definition CEND : string := String "027" "[0m".

Section Script.

Context {F : Type} {R : Runtime F}.

(** [len(cleaned_line) >= 1 and cleaned_line.split()[0] == kind] *)
Definition is_kind (cleaned_line kind : string) : M F bool :=
  if (1 <=? len cleaned_line)%nat then
    first <- index (split cleaned_line) 0 ;; ret (String.eqb first kind)
  else ret false.

(** One turn of [for line in params]. *)
Definition body (line : string) : M F unit :=
  let cleaned_line := strip line in
  b <- is_kind cleaned_line "bond_coeff" ;;
  if b then lammps2omm._bond cleaned_line ;;; ret tt
  else
    a <- is_kind cleaned_line "angle_coeff" ;;
    if a then lammps2omm._angle cleaned_line ;;; ret tt
    else
      d <- is_kind cleaned_line "dihedral_coeff" ;;
      if d then lammps2omm._dihedral cleaned_line ;;; ret tt
      else
        p <- is_kind cleaned_line "pair_coeff" ;;
        if p then lammps2omm._nonbonding cleaned_line ;;; ret tt
        else print (Line [VStr (CGREY ++ cleaned_line ++ CEND)]).

Definition main (fs : string -> option (list string)) (argv : list string)
  : M F unit :=
  fname <-
    (if Nat.eqb (length argv) 2 then index argv 1
     else
       print (Line [VStr "No LAMMPS param file specified!"]) ;;;
       print (Line [VStr "USAGE: script.py lig.param"]) ;;;
       sys_exit None) ;;
  params <- open fs fname ;;
  for_each body params.

End Script.

End main_lammps.

(* ================================================================== *)
(** * main.frcmod.py *)
(* ================================================================== *)

Module main_frcmod.

(** The two loops of [extract] over the one file object, as one pass:
    [in_block] says that control is inside [while not empty_lines], where the
    next line is read by [readline] and stripped; outside, the next line is
    the [line] of [for line in ffrcmod]. *)
Fixpoint extract_loop (component : string) (in_block : bool)
    (empty_lines : nat) (llist : list string) (ffrcmod : list string)
  : list string :=
  match ffrcmod with
  | [] => llist
  | line :: rest =>
      if in_block then
        let temp_line := strip line in
        if (0 <? len temp_line)%nat then
          extract_loop component true empty_lines (llist ++ [temp_line]) rest
        else
          extract_loop component false (empty_lines + 1) llist rest
      else if startswith line component then
        if Nat.eqb empty_lines 0 then
          extract_loop component true empty_lines llist rest
        else
          extract_loop component false empty_lines llist rest
      else if (0 <? empty_lines)%nat then llist
      else extract_loop component false empty_lines llist rest
  end.

Section Script.

Context {F : Type} {R : Runtime F}.

(** [extract(fname, component)] *)
Definition extract (fs : string -> option (list string))
    (fname component : string) : M F (list string) :=
  ffrcmod <- open fs fname ;;
  ret (extract_loop component false 0 [] ffrcmod).

Definition main (fs : string -> option (list string)) (argv : list string)
  : M F unit :=
  fname <-
    (if Nat.eqb (length argv) 2 then index argv 1
     else
       print (Line [VStr "No FRCMOD file specified!"]) ;;;
       print (Line [VStr "USAGE: script.py lig.frcmod"]) ;;;
       sys_exit None) ;;
  BOND <- extract fs fname "BOND" ;;
  ANGLE <- extract fs fname "ANGLE" ;;
  DIHE <- extract fs fname "DIHE" ;;
  IMPROPER <- extract fs fname "IMPROPER" ;;
  NONBON <- extract fs fname "NONBON" ;;
  for_each frcmod2omm._bond BOND ;;;
  print (Line [VStr ""]) ;;;
  for_each frcmod2omm._angle ANGLE ;;;
  print (Line [VStr ""]) ;;;
  for_each frcmod2omm._dihedral DIHE ;;;
  print (Line [VStr ""]) ;;;
  for_each frcmod2omm._improper IMPROPER ;;;
  print (Line [VStr ""]) ;;;
  for_each frcmod2omm._nonbonding NONBON ;;;
  print (Line [VStr ""]).

End Script.

End main_frcmod.

(* ================================================================== *)
(** * Observations on records and printed lines *)
(* ================================================================== *)

Section Observations.

Context {F : Type}.

(** The value of the attribute [name] of a record. *)
Fixpoint lookup (name : string) (l : list (string * value F)) : option (value F) :=
  match l with
  | [] => None
  | (n, v) :: rest => if String.eqb n name then Some v else lookup name rest
  end.

Definition attr (name : string) (e : element F) : option (value F) :=
  lookup name (attrs e).

(** The identifiers of a record, in the order of its attributes: the string
    values of the attributes whose name starts with [type]. *)
Fixpoint types_in (l : list (string * value F)) : list string :=
  match l with
  | [] => []
  | (n, VStr s) :: rest =>
      if startswith n "type" then s :: types_in rest else types_in rest
  | _ :: rest => types_in rest
  end.

Definition types_of (e : element F) : list string := types_in (attrs e).

(** A printed line that is a formatted record. *)
Definition is_record (l : out_line F) : bool :=
  match l with
  | Rec _ => true
  | _ => false
  end.

(** The formatted records among the printed lines. *)
Definition records (o : list (out_line F)) : list (out_line F) :=
  filter is_record o.

(** The number held by the attribute [name]. *)
Definition number (name : string) (e : element F) : option F :=
  match attr name e with
  | Some (VNum _ x) => Some x
  | _ => None
  end.

(** A computation that ended in an exception. *)
Definition raised {A} (c : M F A) : bool :=
  match outcome c with
  | inl _ => true
  | inr _ => false
  end.

End Observations.

(** The aggregation of a [multipole] block as the specification words it:
    the header and the next three lines, four token lists. *)
Definition spec_multipoles_list (line_in_list : list string) (file : list string)
  : list string :=
  let l1 := split (strip (readline file)) in
  let file1 := after_readline file in
  let l2 := split (strip (readline file1)) in
  let file2 := after_readline file1 in
  let l3 := split (strip (readline file2)) in
  (line_in_list ++ l1 ++ l2 ++ l3)%list.

Definition spec_after_multipole (file : list string) : list string :=
  after_readline (after_readline (after_readline file)).

(** The runtimes at which the scripts are evaluated. *)
Definition B64 : Runtime PrimFloat.float := Py.Binary64.runtime.
Definition QQ : Runtime Q := Py.Exact.runtime.

(** A binary64 number within [10 ^ -9] of the decimal [m * 10 ^ e]. *)
Definition near (o : option PrimFloat.float) (m e : Z) : bool :=
  match o with
  | Some x =>
      PrimFloat.ltb
        (PrimFloat.abs (PrimFloat.sub x (Py.Binary64.of_decimal m e)))
        (Py.Binary64.of_decimal 1 (-9))
  | None => false
  end.

(** The bond line of the docstring of [frcmod2omm._bond]. *)
Definition frcmod_bond_line : string := "c3-h1  330.60   1.097".

(** The multipole block of the docstring of [tinker2omm._multipole] as the
    parameter file lays it out, followed by the [vdw] line of the docstring
    of [tinker2omm._vdw]. *)
Definition multipole_header : string :=
  "multipole     7   44   10              -0.14168".

Definition multipole_block : list string :=
  ["                                        0.07684    0.00000    0.42468";
   "                                        0.07677";
   "                                        0.00000   -1.10639";
   "                                       -0.13195    0.00000    1.02962"].

Definition vdw_line : string := "vdw          26               3.8000     0.1010".

Definition multipole_tokens : list string :=
  ["multipole"; "7"; "44"; "10"; "-0.14168"; "0.07684"; "0.00000"; "0.42468";
   "0.07677"; "0.00000"; "-1.10639"; "-0.13195"; "0.00000"; "1.02962"].

(** Lines of a Tinker parameter file that are no parameter records: a
    comment, a line of two tokens, and a line of three tokens of no known
    kind. *)
Definition tinker_comment : string := "# Literature references of the force field".






(** A file system without files, and command lines with no argument and
    with two arguments. *)
Definition no_files : string -> option (list string) := fun _ => None.
Definition argv_none : list string := ["script.py"].
Definition argv_two : list string := ["script.py"; "a.prm"; "b.prm"].

Section Expected.

Context {F : Type} {R : Runtime F}.

(** The record of an FRCMOD bond line with identifiers [t1], [t2], constant
    [k] and length [r]. *)
Definition bond_record (t1 t2 : string) (k r : F) : element F :=
  Element "Bond"
    [("type1", VStr t1); ("type2", VStr t2);
     ("length", VNum "" (fmul r (lit 1 (-1))));
     ("k", VNum "" (fdiv (fmul (fmul (float_of_int 2) k) (lit 4184 (-3)))
                         (fmul (lit 1 (-1)) (lit 1 (-1)))))].

(** The record of an FRCMOD improper line: identifiers as emitted,
    periodicity, phase in degrees and constant. *)
Definition improper_record (t1 t2 t3 t4 : string) (pn : Z) (phase k : F)
  : element F :=
  Element "Improper"
    [("type1", VStr t1); ("type2", VStr t2); ("type3", VStr t3);
     ("type4", VStr t4); ("periodicity1", VInt pn);
     ("phase1", VNum "" (radians phase));
     ("k1", VNum "" (fmul k (lit 4184 (-3))))].

(** The angle record of the FRCMOD and LAMMPS paths: constant [2 * k * 4.184]
    and the angle in radians. *)
Definition angle_record (t1 t2 t3 : string) (k a : F) : element F :=
  Element "Angle"
    [("type1", VStr t1); ("type2", VStr t2); ("type3", VStr t3);
     ("angle", VNum "" (radians a));
     ("k", VNum "" (fmul (fmul (float_of_int 2) k) (lit 4184 (-3))))].

(** The angle record of the Tinker path: constant
    [k * 4.184 / (180 / pi) ** 2] and the angle tokens as read. *)
Definition tinker_angle_record (c1 c2 c3 : string) (k : F)
    (angles : list (string * string)) : element F :=
  Element "Angle"
    ([("class1", VStr c1); ("class2", VStr c2); ("class3", VStr c3);
      ("k", VNum ".9e" (fdiv (fmul k (lit 4184 (-3)))
                             (fsquare (fdiv (float_of_int 180) pi))))]
     ++ map (fun nv => (fst nv, VStr (snd nv))) angles).





(** The two lines each script prints when it is not given exactly one
    argument. *)
Definition tinker_usage : list (out_line F) :=
  [Line [VStr "No AMOEBA Force Field file specified!"];
   Line [VStr "USAGE: script.py tinker-parameter-file.prm"]].

Definition lammps_usage : list (out_line F) :=
  [Line [VStr "No LAMMPS param file specified!"];
   Line [VStr "USAGE: script.py lig.param"]].

Definition frcmod_usage : list (out_line F) :=
  [Line [VStr "No FRCMOD file specified!"];
   Line [VStr "USAGE: script.py lig.frcmod"]].

End Expected.



(** The dihedral line of the docstring of [lammps2omm._dihedral]. *)
Definition lammps_dihedral_line : string :=
  "dihedral_coeff  1  0.15559999999999999     3   0   0.00000000    # hx-c3-n4-hn".

(** The pair line of the docstring of [lammps2omm._nonbonding], of mixed
    types 1 and 3, and same-type lines of style [buck], [buck] cut after
    its eighth token, [buck] with its names at index 7, [buck] with a name
    without hyphen, and [lj]. *)
Definition lammps_mixed_line : string :=
  "pair_coeff   1 3   lj/charmm/coul/long   1.4000000000000000E-002   2.2645400000000002  # pb-hn".

Definition lammps_buck_line : string :=
  "pair_coeff   2 2   buck/coul/long   1388.77   0.3623   175.0  # hn-hn".

Definition lammps_cut_line : string :=
  "pair_coeff   2 2   buck/coul/long   1388.77   0.3623   175.0  #".

Definition lammps_buck_line8 : string :=
  "pair_coeff   2 2   buck/coul/long   1388.77   0.3623  # hn-hn".

Definition lammps_buck_no_hyphen : string :=
  "pair_coeff   2 2   buck/coul/long   1388.77   0.3623   175.0  # hn".

Definition lammps_lj_line : string :=
  "pair_coeff   2 2   lj/charmm/coul/long   0.0157   1.0691  # hn-hn".

(** The improper line of the docstring of [frcmod2omm._improper]. *)
Definition frcmod_improper_line : string :=
  "c -c3-n -c3         1.1          180.0         2.0 ".

(** An FRCMOD file with its blocks in the usual order; the bond block is
    followed, after its blank line, by a second [BOND] header. *)
Definition frcmod_file : list string :=
  ["Remark line goes here";
   "MASS";
   "c3 12.01         0.878";
   "";
   "BOND";
   "c3-h1  330.60   1.097";
   "  c3-n   328.70   1.462  ";
   "   ";
   "BOND";
   "c3-c3  300.90   1.538";
   "";
   "ANGLE";
   "c3-n -c3   63.030     115.640"].

Section Kinds.

Context {F : Type} {R : Runtime F}.

(** The keywords of [main.tinker.py] that start a one-line record, each with
    the conversion its branch calls, in the order of the branches. *)
Definition kinds : list (string * (list string -> M F (element F))) :=
  [("bond", tinker2omm._bond); ("angle", tinker2omm._angle);
   ("strbnd", tinker2omm._strbend); ("torsion", tinker2omm._torsion);
   ("vdw", tinker2omm._vdw); ("opbend", tinker2omm._opbend);
   ("pitors", tinker2omm._pitors); ("polarize", tinker2omm._polarize)].

(** A computation that has printed nothing if it returns. *)
Definition quiet {A : Type} (c : M F A) : Prop :=
  forall a, outcome c = inr a -> stdout c = [].

(** A computation that printed exactly the record it returns, or printed
    nothing and raised. *)
Definition all_or_nothing (c : M F (element F)) : Prop :=
  (exists e, c = ([Rec e], inr e)) \/ (exists x, c = ([], inl x)).

End Kinds.

Section TinkerExpected.

Context {F : Type} {R : Runtime F}.

(** The record of a Tinker [vdw] line: class, sigma and epsilon as read, and
    the reduction attribute. *)
Definition vdw_record (cls : string) (sigma epsilon : F) (reduction : value F)
  : element F :=
  Element "Vdw"
    [("class", VStr cls); ("sigma", VNum ".4f" (fmul sigma (lit 1 (-1))));
     ("epsilon", VNum ".6f" (fmul epsilon (lit 4184 (-3))));
     ("reduction", reduction)].

(** The record of a Tinker [polarize] line with its group identifiers. *)
Definition polarize_record (type : string) (p : F) (thole : string)
    (groups : list string) : element F :=
  Element "Polarize"
    ([("type", VStr type);
      ("polarizability", VNum ".6f" (fmul p (lit 1 (-3))));
      ("thole", VStr thole)]
     ++ map (fun ng => (fst ng, VStr (snd ng)))
          (combine ["pgrp1"; "pgrp2"; "pgrp3"] groups)).

(** A dipole component in the target units: [x * bohr * 0.1] with
    [bohr = 0.52917720859]. *)
Definition scaled_dipole (x : F) : F :=
  fmul (fmul x (lit 52917720859 (-11))) (lit 1 (-1)).

(** A quadrupole component in the target units:
    [x * 0.01 * bohr * bohr / 3.0]. *)
Definition scaled_quadrupole (x : F) : F :=
  fdiv (fmul (fmul (fmul x (lit 1 (-2))) (lit 52917720859 (-11)))
             (lit 52917720859 (-11)))
       (lit 30 (-1)).

(** The charge, dipole and quadrupole attributes of a multipole record. *)
Definition multipole_moments (c0 d1 d2 d3 q11 q21 q22 q31 q32 q33 : F)
  : list (string * value F) :=
  [("c0", VNum ".6f" c0);
   ("d1", VNum ".12e" (scaled_dipole d1));
   ("d2", VNum ".12e" (scaled_dipole d2));
   ("d3", VNum ".12e" (scaled_dipole d3));
   ("q11", VNum ".12e" (scaled_quadrupole q11));
   ("q21", VNum ".12e" (scaled_quadrupole q21));
   ("q22", VNum ".12e" (scaled_quadrupole q22));
   ("q31", VNum ".12e" (scaled_quadrupole q31));
   ("q32", VNum ".12e" (scaled_quadrupole q32));
   ("q33", VNum ".12e" (scaled_quadrupole q33))].

End TinkerExpected.

(** The multipole of the second example of the docstring of
    [tinker2omm._multipole], with the frame [kz kx ky]. *)
Definition multipole_tokens_ky : list string :=
  ["multipole"; "189"; "190"; "-191"; "-191"; "0.28761"; "0.34263"; "0.00000";
   "0.97464"; "-0.69101"; "0.00000"; "0.85372"; "-0.23783"; "0.00000";
   "-0.16271"].

(** A [pair_coeff] line of mixed types and [buck] style, a dihedral line
    whose phase is written with a decimal point, an FRCMOD dihedral line with
    the divisor 0, and a LAMMPS file without any coefficient line. *)
Definition lammps_mixed_buck_line : string :=
  "pair_coeff   1 2   buck/coul/long   1388.77   0.3623   175.0  # pb-hn".

Definition lammps_dihedral_decimal : string :=
  "dihedral_coeff  1  0.15559999999999999     3   180.0   0.00000000    # hx-c3-n4-hn".

Definition frcmod_dihedral_zero : string :=
  "h1-c3-n -c3   0    0.000         0.000           2.000".

Definition lammps_plain_file : list string :=
  ["# parameters of the ligand"; ""; "  pair_style lj/charmm/coul/long 9.0 10.0  "].

Definition fs_plain : string -> option (list string) :=
  fun name => if String.eqb name "lig.param" then Some lammps_plain_file else None.

Section MoreExpected.

Context {F : Type} {R : Runtime F}.

(** The bond record of the LAMMPS path: the constant is [k * 2 * 4.184 /
    (0.1 * 0.1)]. *)
Definition lammps_bond_record (t1 t2 : string) (k r : F) : element F :=
  Element "Bond"
    [("type1", VStr t1); ("type2", VStr t2);
     ("length", VNum "" (fmul r (lit 1 (-1))));
     ("k", VNum "" (fdiv (fmul (fmul k (float_of_int 2)) (lit 4184 (-3)))
                         (fmul (lit 1 (-1)) (lit 1 (-1)))))].

(** The bond record of the Tinker path: the constant is [k * 4.184 / 0.01]. *)
Definition tinker_bond_record (c1 c2 : string) (k r : F) : element F :=
  Element "Bond"
    [("class1", VStr c1); ("class2", VStr c2);
     ("length", VNum ".6f" (fmul r (lit 1 (-1))));
     ("k", VNum ".2f" (fdiv (fmul k (lit 4184 (-3))) (lit 1 (-2))))].

(** The atom record of an FRCMOD [NONBON] line: sigma is [0.1 * 2 * rmin2 /
    2 ** (1/6)] and epsilon [4.184 * epsilon]. *)
Definition frcmod_atom_record (t : string) (rmin2 epsilon : F) : element F :=
  Element "Atom"
    [("type", VStr t); ("charge", VStr "XXXX");
     ("sigma", VNum "" (fdiv (fmul (fmul (lit 1 (-1)) (float_of_int 2)) rmin2)
                             sixth_root_of_two));
     ("epsilon", VNum "" (fmul (lit 4184 (-3)) epsilon))].

(** What a script prints and how it goes on when it calls a conversion and
    leaves the returned value unused: the output of the call; the exception
    of the call, if it raised one. *)
Definition value_unused {A : Type} (c : M F A) : M F unit :=
  (stdout c, match outcome c with inl x => inl x | inr _ => inr tt end).

End MoreExpected.

(** The lines of the docstrings of [frcmod2omm._nonbonding],
    [lammps2omm._bond] and [tinker2omm._bond]. *)
Definition frcmod_nonbon_line : string := "c3          1.9080  0.1094".

Definition lammps_bond_line : string :=
  "bond_coeff  1  338.69999999999999        1.0910000000000000  # c3-hx".

Definition tinker_bond_tokens : list string :=
  ["bond"; "6"; "16"; "341.00"; "1.1120"].

(** The file system that holds [frcmod_file]. *)
Definition fs_frcmod : string -> option (list string) :=
  fun name => if String.eqb name "lig.frcmod" then Some frcmod_file else None.

(* ================================================================== *)
(** * Decimal literals in binary64 *)
(* ================================================================== *)

(** The binary64 runtime reads decimal literals as CPython does; the values
    on the right are those of [float.hex]: literals of more than seventeen
    digits, a literal beyond 2^63, a tie at 2^53 + 1, the smallest
    subnormal, the largest float, an overflow, digit separators, signed
    zeros, the special words, and texts that are no literal. *)
Lemma binary64_reading :
  float_of_string (Runtime:=B64) "0.1" = Some 0x1.999999999999ap-4%float
  /\ float_of_string (Runtime:=B64) "1e19" = Some 0x1.158e460913dp+63%float
  /\ float_of_string (Runtime:=B64) "1e23" = Some 0x1.52d02c7e14af6p+76%float
  /\ float_of_string (Runtime:=B64) "1.4000000000000000E-003"
     = Some 0x1.6f0068db8bac7p-10%float
  /\ float_of_string (Runtime:=B64) "110.10999693591019"
     = Some 0x1.b870a3096993fp+6%float
  /\ float_of_string (Runtime:=B64) "338.69999999999999"
     = Some 0x1.52b3333333333p+8%float
  /\ float_of_string (Runtime:=B64) "0.15559999999999999"
     = Some 0x1.3eab367a0f909p-3%float
  /\ float_of_string (Runtime:=B64) "9007199254740993" = Some 0x1p+53%float
  /\ float_of_string (Runtime:=B64) "5e-324" = Some 0x1p-1074%float
  /\ float_of_string (Runtime:=B64) "1.7976931348623157e308"
     = Some 0x1.fffffffffffffp+1023%float
  /\ float_of_string (Runtime:=B64) "1e400" = Some PrimFloat.infinity
  /\ float_of_string (Runtime:=B64) "1_000.5" = Some 0x1.f44p+9%float
  /\ float_of_string (Runtime:=B64) "  -1.097 " = Some (-0x1.18d4fdf3b645ap+0)%float
  /\ float_of_string (Runtime:=B64) "-0.0" = Some PrimFloat.neg_zero
  /\ float_of_string (Runtime:=B64) "-Infinity" = Some PrimFloat.neg_infinity
  /\ float_of_string (Runtime:=B64) "NaN" = Some PrimFloat.nan
  /\ float_of_string (Runtime:=B64) "1.0.0" = None
  /\ float_of_string (Runtime:=B64) "1__0" = None
  /\ float_of_string (Runtime:=B64) "c3" = None
  /\ float_of_string (Runtime:=B64) "" = None
  /\ sixth_root_of_two (Runtime:=B64) = 0x1.1f59ac3c7d6cp+0%float
  /\ float_of_int (Runtime:=B64) (2 ^ 63 + 1) = 0x1p+63%float
  /\ float_of_int (Runtime:=B64) (- (2 ^ 53 + 1)) = (-0x1p+53)%float.
Proof. repeat split; vm_compute; reflexivity. Qed.

(* ================================================================== *)
(** * Laws of the monad *)
(* ================================================================== *)

Local Open Scope list_scope.

Section MonadLaws.

Context {F : Type}.

Lemma bind_ret_l {A B} (a : A) (k : A -> M F B) : bind (ret a) k = k a.
Proof. unfold bind, ret. destruct (k a); reflexivity. Qed.

Lemma bind_raise {A B} (e : exn) (k : A -> M F B) : bind (raise e) k = raise e.
Proof. reflexivity. Qed.

Lemma bind_print {B} (l : out_line F) (k : unit -> M F B) :
  bind (print l) k = (l :: stdout (k tt), outcome (k tt)).
Proof. unfold bind, print, stdout, outcome. destruct (k tt); reflexivity. Qed.

Lemma bind_assoc {A B C} (c : M F A) (k : A -> M F B) (h : B -> M F C) :
  bind (bind c k) h = bind c (fun a => bind (k a) h).
Proof.
  destruct c as [o [e | a]]; [reflexivity |].
  unfold bind. destruct (k a) as [o1 [e1 | b]]; [reflexivity |].
  destruct (h b) as [o2 r]. now rewrite app_assoc.
Qed.



Lemma index_here {A} (a : A) (l : list A) : index (F:=F) (a :: l) 0 = ret a.
Proof. reflexivity. Qed.

Lemma index_next {A} (a : A) (l : list A) (n : nat) :
  index (F:=F) (a :: l) (S n) = index l n.
Proof. reflexivity. Qed.

Lemma index_nil {A} (n : nat) : index (F:=F) (@nil A) n = raise IndexError.
Proof. now destruct n. Qed.

Lemma index_some {A} (l : list A) (n : nat) (a : A) :
  nth_error l n = Some a -> index (F:=F) l n = ret a.
Proof. unfold index. now intros ->. Qed.

Lemma index_missing {A} (l : list A) (n : nat) :
  nth_error l n = None -> index (F:=F) l n = raise IndexError.
Proof. unfold index. now intros ->. Qed.


End MonadLaws.

Section NumberLaws.

Context {F : Type} {R : Runtime F}.

Lemma float_some (s : string) (x : F) :
  float_of_string s = Some x -> float s = ret x.
Proof. unfold float. now intros ->. Qed.

Lemma float_none (s : string) :
  float_of_string s = None -> float s = raise ValueError.
Proof. unfold float. now intros ->. Qed.

Lemma int_some (s : string) (z : Z) :
  int_of_string s = Some z -> int s = ret z.
Proof. unfold int. now intros ->. Qed.

Lemma int_f_some (x : F) (z : Z) :
  int_of_float x = inr z -> int_f x = ret z.
Proof. unfold int_f. now intros ->. Qed.

Lemma div_some (x y : F) :
  fis_zero y = false -> div x y = ret (fdiv x y).
Proof. unfold div. now intros ->. Qed.

End NumberLaws.

Create Rewrite HintDb py.

#[global] Hint Rewrite @bind_ret_l @bind_raise @index_here @index_next @index_nil
  : py.

(** Runs a conversion on a line whose fields are given by hypotheses. *)
Ltac run_step :=
  match goal with
  | H : float_of_string _ = Some _ |- _ => rewrite (float_some _ _ H)
  | H : int_of_string _ = Some _ |- _ => rewrite (int_some _ _ H)
  | H : int_of_float _ = inr _ |- _ => rewrite (int_f_some _ _ H)
  | H : fis_zero _ = false |- _ => rewrite (div_some _ _ H)
  | H : nth_error _ _ = Some _ |- _ => rewrite (index_some _ _ _ H)
  | H : split _ = _ |- _ => rewrite H
  | H : split_on _ _ = _ |- _ => rewrite H
  | _ => progress autorewrite with py
  end.

Ltac run := repeat run_step.

(** Closes a goal about a computation that has ended in an exception. *)
Ltac now_raised :=
  split; [reflexivity | intros ? ?H; cbn in *; discriminate].

(* ================================================================== *)
(** * Bonds (FRCMOD) *)
(* ================================================================== *)

Section FrcmodBond.

Context {F : Type} {R : Runtime F}.

Lemma frcmod_bond_general (line t1 t2 p0 p1 : string) (ts ps : list string) (k r : F) :
  split (replace hyphen blank (take 5 line)) = t1 :: t2 :: ts ->
  split (drop 5 line) = p0 :: p1 :: ps ->
  float_of_string p0 = Some k ->
  float_of_string p1 = Some r ->
  frcmod2omm._bond line
  = ([Rec (bond_record t1 t2 k r)], inr (bond_record t1 t2 k r)).
Proof.
  intros Ha Hp Hk Hr. unfold frcmod2omm._bond. run.
  reflexivity.
Qed.

End FrcmodBond.

(** C3, as stated, fails on the example: for the bond line with constant
    330.60 and length 1.097 the conversion returns a record whose [k] is not
    276547.68, neither in exact arithmetic nor (within [10 ^ -9]) in
    binary64. *)
Lemma frcmod_bond_example_refuted :
  raised (frcmod2omm._bond (R:=B64) frcmod_bond_line) = false
  /\ (forall e, outcome (frcmod2omm._bond (R:=QQ) frcmod_bond_line) = inr e ->
        number "k" e <> Some (Py.Exact.of_decimal 27654768 (-2)))
  /\ (forall e, outcome (frcmod2omm._bond (R:=B64) frcmod_bond_line) = inr e ->
        near (number "k" e) 27654768 (-2) = false).
Proof.
  split; [reflexivity | split].
  - intros e He. vm_compute in He. inversion He; subst e. vm_compute.
    intros H. inversion H.
  - intros e He. vm_compute in He. inversion He; subst e. vm_compute.
    reflexivity.
Qed.

(** C3 (amended): an FRCMOD bond line with identifiers in its first five
    columns and the constant [k] and length [r] after them is printed and
    returned as the record with [k = 2 * k * 4.184 / (0.1 * 0.1)] and
    [length = r * 0.1]; the divisor is 0.01 in exact arithmetic.  For the
    constant 330.60 and the length 1.097 the record holds 276646.08 and
    0.1097 in exact arithmetic, and binary64 numbers within [10 ^ -9] of
    them. *)
Theorem frcmod_bond_conversion :
  (forall (F : Type) (R : Runtime F) (line t1 t2 p0 p1 : string)
          (ts ps : list string) (k r : F),
      split (replace hyphen blank (take 5 line)) = t1 :: t2 :: ts ->
      split (drop 5 line) = p0 :: p1 :: ps ->
      float_of_string p0 = Some k ->
      float_of_string p1 = Some r ->
      frcmod2omm._bond line
      = ([Rec (bond_record t1 t2 k r)], inr (bond_record t1 t2 k r)))
  /\ fmul (Runtime:=QQ) (Py.Exact.of_decimal 1 (-1)) (Py.Exact.of_decimal 1 (-1))
     = Py.Exact.of_decimal 1 (-2)
  /\ frcmod2omm._bond (R:=QQ) frcmod_bond_line
     = (let e := Element "Bond"
                   [("type1", VStr "c3"); ("type2", VStr "h1");
                    ("length", VNum "" (Py.Exact.of_decimal 1097 (-4)));
                    ("k", VNum "" (Py.Exact.of_decimal 27664608 (-2)))] in
        ([Rec e], inr e))
  /\ (exists e, frcmod2omm._bond (R:=B64) frcmod_bond_line = ([Rec e], inr e)
                /\ types_of e = ["c3"; "h1"]
                /\ near (number "k" e) 27664608 (-2) = true
                /\ near (number "length" e) 1097 (-4) = true).
Proof.
  split; [| split; [| split]].
  - intros. now apply frcmod_bond_general with (ts := ts) (p0 := p0) (p1 := p1) (ps := ps).
  - reflexivity.
  - vm_compute. reflexivity.
  - eexists. split; [vm_compute; reflexivity |]. repeat split; vm_compute; reflexivity.
Qed.

(** The conversion of the docstring line, obtained from the general
    statement of [frcmod_bond_conversion] at exact rationals. *)
Lemma frcmod_bond_conversion_witness :
  frcmod2omm._bond (R:=QQ) frcmod_bond_line
  = ([Rec (bond_record (R:=QQ) "c3" "h1" (Py.Exact.of_decimal 33060 (-2))
                   (Py.Exact.of_decimal 1097 (-3)))],
     inr (bond_record (R:=QQ) "c3" "h1" (Py.Exact.of_decimal 33060 (-2))
                   (Py.Exact.of_decimal 1097 (-3)))).
Proof.
  apply (proj1 frcmod_bond_conversion Q QQ frcmod_bond_line "c3" "h1"
           "330.60" "1.097" [] []); reflexivity.
Defined.

(* ================================================================== *)
(** * Impropers (FRCMOD) *)
(* ================================================================== *)

(** C4: an FRCMOD improper line whose first eleven columns hold the four
    identifiers [a], [b], [c], [d] is printed and returned as the record
    whose identifiers are [c], [a], [b], [d]: the third source identifier
    first, the other three in source order.  The docstring line, with
    identifiers c, c3, n, c3, gives n, c, c3, c3. *)
Theorem frcmod_improper_order :
  (forall (F : Type) (R : Runtime F) (line a b c d p0 p1 p2 : string)
          (ps : list string) (k phase pn : F) (n : Z),
      split (replace hyphen blank (take 11 line)) = [a; b; c; d] ->
      split (drop 11 line) = p0 :: p1 :: p2 :: ps ->
      float_of_string p0 = Some k ->
      float_of_string p1 = Some phase ->
      float_of_string p2 = Some pn ->
      int_of_float pn = inr n ->
      let e := improper_record c a b d n phase k in
      frcmod2omm._improper line = ([Rec e], inr e)
      /\ types_of e = [c; a; b; d])
  /\ split (replace hyphen blank (take 11 frcmod_improper_line))
     = ["c"; "c3"; "n"; "c3"]
  /\ (exists e, frcmod2omm._improper (R:=B64) frcmod_improper_line
                = ([Rec e], inr e)
                /\ types_of e = ["n"; "c"; "c3"; "c3"]).
Proof.
  split; [| split].
  - intros F R line a b c d p0 p1 p2 ps k phase pn n Ha Hp Hk Hph Hpn Hn e.
    split; [| reflexivity].
    unfold frcmod2omm._improper. run. reflexivity.
  - reflexivity.
  - eexists. split; vm_compute; reflexivity.
Qed.

(** The docstring line through the general statement of
    [frcmod_improper_order], in binary64. *)
Lemma frcmod_improper_order_witness :
  types_of (improper_record (R:=B64) "n" "c" "c3" "c3" 2
              (Py.Binary64.of_decimal 1800 (-1)) (Py.Binary64.of_decimal 11 (-1)))
  = ["n"; "c"; "c3"; "c3"]
  /\ stdout (frcmod2omm._improper (R:=B64) frcmod_improper_line)
     = [Rec (improper_record (R:=B64) "n" "c" "c3" "c3" 2
               (Py.Binary64.of_decimal 1800 (-1))
               (Py.Binary64.of_decimal 11 (-1)))].
Proof.
  destruct (proj1 frcmod_improper_order PrimFloat.float B64
              frcmod_improper_line "c" "c3" "n" "c3" "1.1" "180.0" "2.0" []
              (Py.Binary64.of_decimal 11 (-1))
              (Py.Binary64.of_decimal 1800 (-1))
              (Py.Binary64.of_decimal 20 (-1)) 2
              eq_refl eq_refl eq_refl eq_refl eq_refl eq_refl) as [Hrun Hty].
  split; [exact Hty | now rewrite Hrun].
Defined.

(* ================================================================== *)
(** * Angles (FRCMOD, LAMMPS, Tinker) *)
(* ================================================================== *)

Section Angles.

Context {F : Type} {R : Runtime F}.

Lemma frcmod_angle_general (line t1 t2 t3 p0 p1 : string) (ts ps : list string)
    (k a : F) :
  split (replace hyphen blank (take 8 line)) = t1 :: t2 :: t3 :: ts ->
  split (drop 8 line) = p0 :: p1 :: ps ->
  float_of_string p0 = Some k ->
  float_of_string p1 = Some a ->
  frcmod2omm._angle line
  = ([Rec (angle_record t1 t2 t3 k a)], inr (angle_record t1 t2 t3 k a)).
Proof.
  intros Ha Hp Hk Hang. unfold frcmod2omm._angle. run. reflexivity.
Qed.

Lemma lammps_angle_general (line l0 l1 l2 l3 l4 l5 t1 t2 t3 : string)
    (ls ts : list string) (k a : F) :
  split line = l0 :: l1 :: l2 :: l3 :: l4 :: l5 :: ls ->
  split_on hyphen l5 = t1 :: t2 :: t3 :: ts ->
  float_of_string l2 = Some k ->
  float_of_string l3 = Some a ->
  lammps2omm._angle line
  = ([Rec (angle_record t1 t2 t3 k a)], inr (angle_record t1 t2 t3 k a)).
Proof.
  intros Hl Ht Hk Hang. unfold lammps2omm._angle. run. reflexivity.
Qed.

Lemma tinker_angle_one (kw c1 c2 c3 tk a1 : string) (k : F) :
  float_of_string tk = Some k ->
  tinker2omm._angle [kw; c1; c2; c3; tk; a1]
  = ret (tinker_angle_record c1 c2 c3 k [("angle1", a1)]).
Proof.
  intros Hk. unfold tinker2omm._angle. cbn [length Nat.eqb]. run. reflexivity.
Qed.

Lemma tinker_angle_two (kw c1 c2 c3 tk a1 a2 x : string) (k : F) :
  float_of_string tk = Some k ->
  tinker2omm._angle [kw; c1; c2; c3; tk; a1; a2; x]
  = ret (tinker_angle_record c1 c2 c3 k [("angle1", a1); ("angle2", a2)]).
Proof.
  intros Hk. unfold tinker2omm._angle. cbn [length Nat.eqb]. run. reflexivity.
Qed.

Lemma tinker_angle_three (kw c1 c2 c3 tk a1 a2 a3 x : string) (k : F) :
  float_of_string tk = Some k ->
  tinker2omm._angle [kw; c1; c2; c3; tk; a1; a2; a3; x]
  = ret (tinker_angle_record c1 c2 c3 k
           [("angle1", a1); ("angle2", a2); ("angle3", a3)]).
Proof.
  intros Hk. unfold tinker2omm._angle. cbn [length Nat.eqb]. run. reflexivity.
Qed.

End Angles.

(** C5: an FRCMOD angle line and a LAMMPS [angle_coeff] line with constant
    [k] and angle [a] give the record with constant [2 * k * 4.184] and angle
    [radians a]; a Tinker angle record of 6, 8 or 9 tokens gives the record
    with constant [k * 4.184 / (180 / pi) ** 2] and the angle tokens
    themselves, in degrees as read.  The three hold together. *)
Theorem angle_asymmetry (F : Type) (R : Runtime F) :
  (forall (line t1 t2 t3 p0 p1 : string) (ts ps : list string) (k a : F),
      split (replace hyphen blank (take 8 line)) = t1 :: t2 :: t3 :: ts ->
      split (drop 8 line) = p0 :: p1 :: ps ->
      float_of_string p0 = Some k ->
      float_of_string p1 = Some a ->
      frcmod2omm._angle line
      = ([Rec (angle_record t1 t2 t3 k a)], inr (angle_record t1 t2 t3 k a))
      /\ number "k" (angle_record t1 t2 t3 k a)
         = Some (fmul (fmul (float_of_int 2) k) (lit 4184 (-3)))
      /\ attr "angle" (angle_record t1 t2 t3 k a)
         = Some (VNum "" (fmul a (fdiv pi (float_of_int 180)))))
  /\ (forall (line l0 l1 l2 l3 l4 l5 t1 t2 t3 : string) (ls ts : list string)
             (k a : F),
      split line = l0 :: l1 :: l2 :: l3 :: l4 :: l5 :: ls ->
      split_on hyphen l5 = t1 :: t2 :: t3 :: ts ->
      float_of_string l2 = Some k ->
      float_of_string l3 = Some a ->
      lammps2omm._angle line
      = ([Rec (angle_record t1 t2 t3 k a)], inr (angle_record t1 t2 t3 k a)))
  /\ (forall (kw c1 c2 c3 tk a1 a2 a3 x : string) (k : F),
      float_of_string tk = Some k ->
      let omm_k := fdiv (fmul k (lit 4184 (-3)))
                        (fsquare (fdiv (float_of_int 180) pi)) in
      (tinker2omm._angle [kw; c1; c2; c3; tk; a1]
       = ret (tinker_angle_record c1 c2 c3 k [("angle1", a1)])
       /\ number "k" (tinker_angle_record c1 c2 c3 k [("angle1", a1)])
          = Some omm_k
       /\ attr "angle1" (tinker_angle_record c1 c2 c3 k [("angle1", a1)])
          = Some (VStr a1))
      /\ tinker2omm._angle [kw; c1; c2; c3; tk; a1; a2; x]
         = ret (tinker_angle_record c1 c2 c3 k [("angle1", a1); ("angle2", a2)])
      /\ tinker2omm._angle [kw; c1; c2; c3; tk; a1; a2; a3; x]
         = ret (tinker_angle_record c1 c2 c3 k
                  [("angle1", a1); ("angle2", a2); ("angle3", a3)])).
Proof.
  split; [| split].
  - intros line t1 t2 t3 p0 p1 ts ps k a Ha Hp Hk Hang.
    split; [| split; reflexivity].
    now apply frcmod_angle_general with (ts := ts) (p0 := p0) (p1 := p1) (ps := ps).
  - intros line l0 l1 l2 l3 l4 l5 t1 t2 t3 ls ts k a Hl Ht Hk Hang.
    now apply lammps_angle_general
      with (l0 := l0) (l1 := l1) (l2 := l2) (l3 := l3) (l4 := l4) (l5 := l5)
           (ls := ls) (ts := ts).
  - intros kw c1 c2 c3 tk a1 a2 a3 x k Hk omm_k.
    split; [split; [| split; reflexivity] | split].
    + now apply tinker_angle_one.
    + now apply tinker_angle_two.
    + now apply tinker_angle_three.
Qed.

(** The three paths on the constant 69.20 and the angle 114.00, in binary64:
    the FRCMOD and LAMMPS records hold 579.0656 and 1.98967534727 radians,
    the Tinker record holds 0.0881967344796 and the token [114.00]. *)
Lemma angle_asymmetry_witness :
  (near (number "k" (angle_record (R:=B64) "c3" "n" "c3"
                       (Py.Binary64.of_decimal 6920 (-2))
                       (Py.Binary64.of_decimal 11400 (-2))))
        5790656 (-4)
   && near (number "angle" (angle_record (R:=B64) "c3" "n" "c3"
                              (Py.Binary64.of_decimal 6920 (-2))
                              (Py.Binary64.of_decimal 11400 (-2))))
           198967534727 (-11)) = true
  /\ stdout (frcmod2omm._angle (R:=B64) "c3-n -c3   69.20     114.00")
     = stdout (lammps2omm._angle (R:=B64)
                 "angle_coeff  1  69.20  114.00  # c3-n-c3")
  /\ tinker2omm._angle (R:=B64) ["angle"; "53"; "54"; "54"; "69.20"; "114.00"]
     = ret (tinker_angle_record (R:=B64) "53" "54" "54"
              (Py.Binary64.of_decimal 6920 (-2)) [("angle1", "114.00")])
  /\ near (number "k" (tinker_angle_record (R:=B64) "53" "54" "54"
                         (Py.Binary64.of_decimal 6920 (-2))
                         [("angle1", "114.00")]))
          881967344796 (-13) = true.
Proof.
  destruct (angle_asymmetry PrimFloat.float B64) as [Hf [Hl Ht]].
  destruct (Hf "c3-n -c3   69.20     114.00" "c3" "n" "c3" "69.20" "114.00"
              [] [] (Py.Binary64.of_decimal 6920 (-2))
              (Py.Binary64.of_decimal 11400 (-2))
              eq_refl eq_refl eq_refl eq_refl) as [Hfr _].
  pose proof (Hl "angle_coeff  1  69.20  114.00  # c3-n-c3"
                "angle_coeff" "1" "69.20" "114.00" "#" "c3-n-c3"
                "c3" "n" "c3" [] [] (Py.Binary64.of_decimal 6920 (-2))
                (Py.Binary64.of_decimal 11400 (-2))
                eq_refl eq_refl eq_refl eq_refl) as Hla.
  destruct (Ht "angle" "53" "54" "54" "69.20" "114.00" "" "" ""
              (Py.Binary64.of_decimal 6920 (-2)) eq_refl) as [[Hti _] _].
  split; [vm_compute; reflexivity |].
  split; [now rewrite Hfr, Hla |].
  split; [exact Hti | vm_compute; reflexivity].
Defined.

(* ================================================================== *)
(** * Torsions (FRCMOD, LAMMPS, Tinker) *)
(* ================================================================== *)

Section Torsions.

Context {F : Type} {R : Runtime F}.




End Torsions.




(* ================================================================== *)
(** * Pairs (LAMMPS) *)
(* ================================================================== *)

Lemma startswith_cons (c a : ascii) (s p : string) :
  startswith (String c s) (String a p) = Ascii.eqb a c && startswith s p.
Proof. reflexivity. Qed.

Lemma buck_is_not_lj (s : string) :
  startswith s "buck" = true -> startswith s "lj" = false.
Proof.
  destruct s as [| c s]; [discriminate |].
  rewrite !startswith_cons. destruct (Ascii.eqb_spec "b" c) as [<- | _];
    [reflexivity | discriminate].
Qed.

Lemma eqb_differ (s t : string) : s <> t -> String.eqb s t = false.
Proof. intros H. now apply String.eqb_neq. Qed.

Section Pairs.

Context {F : Type} {R : Runtime F}.

(** A mixed [lj] pair prints no record and returns none, whatever else the
    line holds. *)
Lemma lammps_mixed_lj_no_record (line t1 t2 style : string) :
  nth_error (split line) 1 = Some t1 ->
  nth_error (split line) 2 = Some t2 ->
  nth_error (split line) 3 = Some style ->
  t1 <> t2 ->
  startswith style "lj" = true ->
  records (stdout (lammps2omm._nonbonding line)) = []
  /\ forall e, outcome (lammps2omm._nonbonding line)
               <> inr (lammps2omm.Formatted e).
Proof.
  intros H1 H2 H3 Hne Hlj. unfold lammps2omm._nonbonding.
  rewrite (index_some _ _ _ H1), (index_some _ _ _ H2), !bind_ret_l.
  destruct (nth_error (split line) 4) as [l4 |] eqn:E4;
    [rewrite (index_some _ _ _ E4), !bind_ret_l
    | rewrite (index_missing _ _ E4); now_raised].
  destruct (float_of_string l4) as [epsilon |] eqn:Ee;
    [rewrite (float_some _ _ Ee), !bind_ret_l
    | rewrite (float_none _ Ee); now_raised].
  destruct (nth_error (split line) 5) as [l5 |] eqn:E5;
    [rewrite (index_some _ _ _ E5), !bind_ret_l
    | rewrite (index_missing _ _ E5); now_raised].
  destruct (float_of_string l5) as [sigma |] eqn:Es;
    [rewrite (float_some _ _ Es), !bind_ret_l
    | rewrite (float_none _ Es); now_raised].
  rewrite (index_some _ _ _ H3), !bind_ret_l.
  rewrite (eqb_differ _ _ Hne), Hlj. cbn [andb negb].
  destruct (nth_error (split line) 7) as [l7 |] eqn:E7;
    [rewrite (index_some _ _ _ E7) | rewrite (index_missing _ _ E7)];
    now_raised.
Qed.

End Pairs.

Lemma lj_is_not_buck (s : string) :
  startswith s "lj" = true -> startswith s "buck" = false.
Proof.
  destruct s as [| c s]; [discriminate |].
  rewrite !startswith_cons. destruct (Ascii.eqb_spec "l" c) as [<- | _];
    [reflexivity | discriminate].
Qed.

Section PairCases.

Context {F : Type} {R : Runtime F}.

(** A same-type [buck] pair whose first six tokens are read: the token at
    index 8 and its second hyphen-separated field decide the outcome. *)
Lemma lammps_same_buck_cases (line l0 t style l4 l5 : string)
    (ls : list string) (epsilon sigma : F) :
  split line = l0 :: t :: t :: style :: l4 :: l5 :: ls ->
  startswith style "buck" = true ->
  float_of_string l4 = Some epsilon ->
  float_of_string l5 = Some sigma ->
  lammps2omm._nonbonding line
  = match nth_error (split line) 8 with
    | Some l8 =>
        match nth_error (split_on hyphen l8) 1 with
        | Some name =>
            ([Line [VStr (String "027" "[90m" ++ strip line
                          ++ String "027" "[0m")%string];
              Rec (Element "Atom"
                     [("type", VStr name); ("charge", VStr "XXXX");
                      ("sigma", VStr "0.0"); ("epsilon", VStr "0.0")])],
             inr lammps2omm.Empty)
        | None =>
            ([Line [VStr (String "027" "[90m" ++ strip line
                          ++ String "027" "[0m")%string]],
             inl IndexError)
        end
    | None =>
        ([Line [VStr (String "027" "[90m" ++ strip line
                      ++ String "027" "[0m")%string]],
         inl IndexError)
    end.
Proof.
  intros Hl Hb He Hs. unfold lammps2omm._nonbonding. run.
  rewrite String.eqb_refl, (buck_is_not_lj _ Hb), Hb. cbn [andb negb].
  rewrite !bind_print. run.
  change (nth_error (l0 :: t :: t :: style :: l4 :: l5 :: ls) 8)
    with (nth_error ls 2).
  destruct (nth_error ls 2) as [l8 |] eqn:E8;
    [rewrite (index_some _ _ _ E8) | rewrite (index_missing _ _ E8)];
    run; [| reflexivity].
  destruct (nth_error (split_on hyphen l8) 1) as [name |] eqn:En;
    [rewrite (index_some _ _ _ En) | rewrite (index_missing _ _ En)];
    run; reflexivity.
Qed.

(** A same-type [lj] pair whose first six tokens are read: the token at
    index 7 and its second hyphen-separated field decide the outcome. *)
Lemma lammps_same_lj_cases (line l0 t style l4 l5 : string)
    (ls : list string) (epsilon sigma : F) :
  split line = l0 :: t :: t :: style :: l4 :: l5 :: ls ->
  startswith style "lj" = true ->
  float_of_string l4 = Some epsilon ->
  float_of_string l5 = Some sigma ->
  lammps2omm._nonbonding line
  = match nth_error (split line) 7 with
    | Some l7 =>
        match nth_error (split_on hyphen l7) 1 with
        | Some name =>
            let e := Element "Atom"
                       [("type", VStr name); ("charge", VStr "XXXX");
                        ("sigma", VNum "" (fmul (lit 1 (-1)) sigma));
                        ("epsilon", VNum "" (fmul (lit 4184 (-3)) epsilon))] in
            ([Rec e], inr (lammps2omm.Formatted e))
        | None => ([], inl IndexError)
        end
    | None => ([], inl IndexError)
    end.
Proof.
  intros Hl Hlj He Hs. unfold lammps2omm._nonbonding. run.
  rewrite String.eqb_refl, Hlj, (lj_is_not_buck _ Hlj). cbn [andb negb].
  change (nth_error (l0 :: t :: t :: style :: l4 :: l5 :: ls) 7)
    with (nth_error ls 1).
  destruct (nth_error ls 1) as [l7 |] eqn:E7;
    [rewrite (index_some _ _ _ E7) | rewrite (index_missing _ _ E7)];
    run; [| reflexivity].
  destruct (nth_error (split_on hyphen l7) 1) as [name |] eqn:En;
    [rewrite (index_some _ _ _ En) | rewrite (index_missing _ _ En)];
    run; [| reflexivity].
  rewrite !bind_print. run. reflexivity.
Qed.

(** A mixed [lj] pair on a line of eight tokens or more. *)
Lemma lammps_mixed_lj_output (line l0 t1 t2 style l4 l5 l6 l7 : string)
    (ls : list string) (epsilon sigma : F) :
  split line = l0 :: t1 :: t2 :: style :: l4 :: l5 :: l6 :: l7 :: ls ->
  t1 <> t2 ->
  startswith style "lj" = true ->
  float_of_string l4 = Some epsilon ->
  float_of_string l5 = Some sigma ->
  lammps2omm._nonbonding line
  = ([Line [VStr (String "027" "[90m" ++ strip line
                  ++ String "027" "[0m")%string];
      Line [VStr (String "027" "[33m"); VStr "    "; VStr l7;
            VStr "   omm_sigma="; VNum "" (fmul (lit 1 (-1)) sigma);
            VStr "   omm_epsilon="; VNum "" (fmul (lit 4184 (-3)) epsilon);
            VStr (String "027" "[0m")]],
     inr lammps2omm.Empty).
Proof.
  intros Hl Hne Hlj He Hs. unfold lammps2omm._nonbonding. run.
  rewrite (eqb_differ _ _ Hne), Hlj. cbn [andb negb]. run.
  rewrite !bind_print. run. reflexivity.
Qed.

End PairCases.

(** C7, as stated, fails on a same-type [buck] line that has its atom names
    at index 7, the place of the names on an [lj] line: the line has eight
    tokens, the conversion prints the line in grey and raises [IndexError]
    at [llist[8]]; no record is printed. *)
Lemma pair_same_buck_refuted :
  length (split lammps_buck_line8) = 8%nat
  /\ nth_error (split lammps_buck_line8) 7 = Some "hn-hn"
  /\ lammps2omm._nonbonding (R:=B64) lammps_buck_line8
     = ([Line [VStr (String "027" "[90m" ++ lammps_buck_line8
                     ++ String "027" "[0m")%string]],
        inl IndexError)
  /\ records (stdout (lammps2omm._nonbonding (R:=B64) lammps_buck_line8)) = [].
Proof. repeat split. Qed.

(** C7 (amended): a [pair_coeff] line of two different atom types and a
    style that starts with [lj] prints no record and returns none; when its
    tokens 4 and 5 are numbers and it has a token at index 7, it prints the
    line in grey and then the yellow annotation with that token and with
    [0.1 * sigma] and [4.184 * epsilon].  A [pair_coeff] line of one atom
    type and a style that starts with [buck], whose tokens 4 and 5 are
    numbers, prints the line in grey and then, when the token at index 8 has
    a second hyphen-separated field, the record of that name whose [sigma]
    and [epsilon] are the text [0.0], whatever the numbers on the line; when
    the token at index 8 is missing or has no hyphen, it raises [IndexError]
    after the grey line. *)
Theorem pair_mixed_lj_and_same_buck (F : Type) (R : Runtime F) :
  (forall line t1 t2 style : string,
      nth_error (split line) 1 = Some t1 ->
      nth_error (split line) 2 = Some t2 ->
      nth_error (split line) 3 = Some style ->
      t1 <> t2 ->
      startswith style "lj" = true ->
      records (stdout (lammps2omm._nonbonding line)) = []
      /\ forall e, outcome (lammps2omm._nonbonding line)
                   <> inr (lammps2omm.Formatted e))
  /\ (forall (line l0 t1 t2 style l4 l5 l6 l7 : string) (ls : list string)
             (epsilon sigma : F),
      split line = l0 :: t1 :: t2 :: style :: l4 :: l5 :: l6 :: l7 :: ls ->
      t1 <> t2 ->
      startswith style "lj" = true ->
      float_of_string l4 = Some epsilon ->
      float_of_string l5 = Some sigma ->
      lammps2omm._nonbonding line
      = ([Line [VStr (String "027" "[90m" ++ strip line
                      ++ String "027" "[0m")%string];
          Line [VStr (String "027" "[33m"); VStr "    "; VStr l7;
                VStr "   omm_sigma="; VNum "" (fmul (lit 1 (-1)) sigma);
                VStr "   omm_epsilon="; VNum "" (fmul (lit 4184 (-3)) epsilon);
                VStr (String "027" "[0m")]],
         inr lammps2omm.Empty))
  /\ (forall (line l0 t style l4 l5 : string) (ls : list string)
             (epsilon sigma : F),
      split line = l0 :: t :: t :: style :: l4 :: l5 :: ls ->
      startswith style "buck" = true ->
      float_of_string l4 = Some epsilon ->
      float_of_string l5 = Some sigma ->
      lammps2omm._nonbonding line
      = match nth_error (split line) 8 with
        | Some l8 =>
            match nth_error (split_on hyphen l8) 1 with
            | Some name =>
                ([Line [VStr (String "027" "[90m" ++ strip line
                              ++ String "027" "[0m")%string];
                  Rec (Element "Atom"
                         [("type", VStr name); ("charge", VStr "XXXX");
                          ("sigma", VStr "0.0"); ("epsilon", VStr "0.0")])],
                 inr lammps2omm.Empty)
            | None =>
                ([Line [VStr (String "027" "[90m" ++ strip line
                              ++ String "027" "[0m")%string]],
                 inl IndexError)
            end
        | None =>
            ([Line [VStr (String "027" "[90m" ++ strip line
                          ++ String "027" "[0m")%string]],
             inl IndexError)
        end).
Proof.
  split; [| split].
  - intros. now apply lammps_mixed_lj_no_record with (t1 := t1) (t2 := t2) (style := style).
  - intros. eapply lammps_mixed_lj_output; eassumption.
  - intros. eapply lammps_same_buck_cases; eassumption.
Qed.

(** The mixed line of the docstring and a same-type [buck] line of nine
    tokens through [pair_mixed_lj_and_same_buck], in binary64. *)
Lemma pair_mixed_lj_and_same_buck_witness :
  records (stdout (lammps2omm._nonbonding (R:=B64) lammps_mixed_line)) = []
  /\ lammps2omm._nonbonding (R:=B64) lammps_mixed_line
     = ([Line [VStr (String "027" "[90m" ++ lammps_mixed_line
                     ++ String "027" "[0m")%string];
         Line [VStr (String "027" "[33m"); VStr "    "; VStr "pb-hn";
               VStr "   omm_sigma=";
               VNum "" (PrimFloat.mul (Py.Binary64.of_decimal 1 (-1))
                          (Py.Binary64.of_decimal 22645400000000002 (-16)));
               VStr "   omm_epsilon=";
               VNum "" (PrimFloat.mul (Py.Binary64.of_decimal 4184 (-3))
                          (Py.Binary64.of_decimal 14000000000000000 (-18)));
               VStr (String "027" "[0m")]],
        inr lammps2omm.Empty)
  /\ lammps2omm._nonbonding (R:=B64) lammps_buck_line
     = ([Line [VStr (String "027" "[90m" ++ lammps_buck_line
                     ++ String "027" "[0m")%string];
         Rec (Element "Atom"
                [("type", VStr "hn"); ("charge", VStr "XXXX");
                 ("sigma", VStr "0.0"); ("epsilon", VStr "0.0")])],
        inr lammps2omm.Empty).
Proof.
  destruct (pair_mixed_lj_and_same_buck PrimFloat.float B64) as [Hn [Hm Hb]].
  split; [| split].
  - apply (Hn lammps_mixed_line "1" "3" "lj/charmm/coul/long");
      try reflexivity. intros H; inversion H.
  - apply (Hm lammps_mixed_line "pair_coeff" "1" "3" "lj/charmm/coul/long"
             "1.4000000000000000E-002" "2.2645400000000002" "#" "pb-hn" []);
      try reflexivity. intros H; inversion H.
  - exact (Hb lammps_buck_line "pair_coeff" "2" "buck/coul/long" "1388.77"
             "0.3623" ["175.0"; "#"; "hn-hn"]
             (Py.Binary64.of_decimal 138877 (-2))
             (Py.Binary64.of_decimal 3623 (-4))
             eq_refl eq_refl eq_refl eq_refl).
Defined.

(** C10, as stated, fails on a same-type [buck] line of nine tokens whose
    token at index 8 has no hyphen: the conversion prints one line, the line
    in grey, and raises [IndexError] at [split('-')[1]]. *)
Lemma pair_buck_name_refuted :
  length (split lammps_buck_no_hyphen) = 9%nat
  /\ nth_error (split lammps_buck_no_hyphen) 8 = Some "hn"
  /\ lammps2omm._nonbonding (R:=B64) lammps_buck_no_hyphen
     = ([Line [VStr (String "027" "[90m" ++ lammps_buck_no_hyphen
                     ++ String "027" "[0m")%string]],
        inl IndexError).
Proof. repeat split. Qed.

(** C10 (amended): a [pair_coeff] line of one atom type and a style that
    starts with [buck], whose tokens 4 and 5 are numbers and whose token at
    index 8 has a second hyphen-separated field, prints two lines, the line
    itself in grey and then the placeholder record named by that field, and
    returns the empty string; when the token at index 8 is missing (fewer
    than nine tokens) or has no hyphen, the conversion prints the grey line
    and raises [IndexError].  With a style that starts with [lj] the name is
    read in the same way from the token at index 7, one position earlier,
    and nothing is printed when it cannot be read. *)
Theorem pair_same_buck_output (F : Type) (R : Runtime F) :
  (forall (line l0 t style l4 l5 : string) (ls : list string)
          (epsilon sigma : F),
      split line = l0 :: t :: t :: style :: l4 :: l5 :: ls ->
      startswith style "buck" = true ->
      float_of_string l4 = Some epsilon ->
      float_of_string l5 = Some sigma ->
      (forall l8 name,
          nth_error (split line) 8 = Some l8 ->
          nth_error (split_on hyphen l8) 1 = Some name ->
          lammps2omm._nonbonding line
          = ([Line [VStr (String "027" "[90m" ++ strip line
                          ++ String "027" "[0m")%string];
              Rec (Element "Atom"
                     [("type", VStr name); ("charge", VStr "XXXX");
                      ("sigma", VStr "0.0"); ("epsilon", VStr "0.0")])],
             inr lammps2omm.Empty))
      /\ ((length (split line) < 9)%nat
          \/ (exists l8, nth_error (split line) 8 = Some l8
                         /\ nth_error (split_on hyphen l8) 1 = None) ->
          lammps2omm._nonbonding line
          = ([Line [VStr (String "027" "[90m" ++ strip line
                          ++ String "027" "[0m")%string]],
             inl IndexError)))
  /\ (forall (line l0 t style l4 l5 : string) (ls : list string)
             (epsilon sigma : F),
      split line = l0 :: t :: t :: style :: l4 :: l5 :: ls ->
      startswith style "lj" = true ->
      float_of_string l4 = Some epsilon ->
      float_of_string l5 = Some sigma ->
      (forall l7 name,
          nth_error (split line) 7 = Some l7 ->
          nth_error (split_on hyphen l7) 1 = Some name ->
          lammps2omm._nonbonding line
          = (let e := Element "Atom"
                        [("type", VStr name); ("charge", VStr "XXXX");
                         ("sigma", VNum "" (fmul (lit 1 (-1)) sigma));
                         ("epsilon", VNum "" (fmul (lit 4184 (-3)) epsilon))] in
             ([Rec e], inr (lammps2omm.Formatted e))))
      /\ ((length (split line) < 8)%nat
          \/ (exists l7, nth_error (split line) 7 = Some l7
                         /\ nth_error (split_on hyphen l7) 1 = None) ->
          lammps2omm._nonbonding line = ([], inl IndexError))).
Proof.
  split.
  - intros line l0 t style l4 l5 ls epsilon sigma Hl Hb He Hs.
    rewrite (lammps_same_buck_cases line l0 t style l4 l5 ls epsilon sigma
               Hl Hb He Hs).
    split.
    + intros l8 name H8 Hn. now rewrite H8, Hn.
    + intros [Hlen | (l8 & H8 & Hn)].
      * assert (H8 : nth_error (split line) 8 = None)
          by (apply nth_error_None; lia).
        now rewrite H8.
      * now rewrite H8, Hn.
  - intros line l0 t style l4 l5 ls epsilon sigma Hl Hlj He Hs.
    rewrite (lammps_same_lj_cases line l0 t style l4 l5 ls epsilon sigma
               Hl Hlj He Hs).
    split.
    + intros l7 name H7 Hn. now rewrite H7, Hn.
    + intros [Hlen | (l7 & H7 & Hn)].
      * assert (H7 : nth_error (split line) 7 = None)
          by (apply nth_error_None; lia).
        now rewrite H7.
      * now rewrite H7, Hn.
Qed.

(** A same-type [buck] line, the same line cut after its eighth token, and a
    same-type [lj] line through [pair_same_buck_output], in binary64. *)
Lemma pair_same_buck_output_witness :
  lammps2omm._nonbonding (R:=B64) lammps_buck_line
  = ([Line [VStr (String "027" "[90m" ++ lammps_buck_line
                  ++ String "027" "[0m")%string];
      Rec (Element "Atom"
             [("type", VStr "hn"); ("charge", VStr "XXXX");
              ("sigma", VStr "0.0"); ("epsilon", VStr "0.0")])],
     inr lammps2omm.Empty)
  /\ lammps2omm._nonbonding (R:=B64) lammps_cut_line
     = ([Line [VStr (String "027" "[90m" ++ lammps_cut_line
                     ++ String "027" "[0m")%string]],
        inl IndexError)
  /\ lammps2omm._nonbonding (R:=B64) lammps_lj_line
     = (let e := Element "Atom"
                   [("type", VStr "hn"); ("charge", VStr "XXXX");
                    ("sigma", VNum "" (PrimFloat.mul
                                         (Py.Binary64.of_decimal 1 (-1))
                                         (Py.Binary64.of_decimal 10691 (-4))));
                    ("epsilon", VNum "" (PrimFloat.mul
                                           (Py.Binary64.of_decimal 4184 (-3))
                                           (Py.Binary64.of_decimal 157 (-4))))] in
        ([Rec e], inr (lammps2omm.Formatted e))).
Proof.
  destruct (pair_same_buck_output PrimFloat.float B64) as [Hb Hl].
  split; [| split].
  - exact (proj1 (Hb lammps_buck_line "pair_coeff" "2" "buck/coul/long"
                    "1388.77" "0.3623" ["175.0"; "#"; "hn-hn"]
                    (Py.Binary64.of_decimal 138877 (-2))
                    (Py.Binary64.of_decimal 3623 (-4))
                    eq_refl eq_refl eq_refl eq_refl)
             "hn-hn" "hn" eq_refl eq_refl).
  - apply (proj2 (Hb lammps_cut_line "pair_coeff" "2" "buck/coul/long"
                    "1388.77" "0.3623" ["175.0"; "#"]
                    (Py.Binary64.of_decimal 138877 (-2))
                    (Py.Binary64.of_decimal 3623 (-4))
                    eq_refl eq_refl eq_refl eq_refl)).
    left. cbv. lia.
  - exact (proj1 (Hl lammps_lj_line "pair_coeff" "2" "lj/charmm/coul/long"
                    "0.0157" "1.0691" ["#"; "hn-hn"]
                    (Py.Binary64.of_decimal 157 (-4))
                    (Py.Binary64.of_decimal 10691 (-4))
                    eq_refl eq_refl eq_refl eq_refl)
             "hn-hn" "hn" eq_refl eq_refl).
Defined.

(* ================================================================== *)
(** * The argument check of the three scripts *)
(* ================================================================== *)

(** C8, as stated, fails on the exit status: without an argument, and with
    two arguments, each script ends with exit status 0. *)
Lemma usage_exit_status_refuted :
  exit_status (main_tinker.main (R:=B64) no_files argv_none) = 0
  /\ exit_status (main_lammps.main (R:=B64) no_files argv_none) = 0
  /\ exit_status (main_frcmod.main (R:=B64) no_files argv_none) = 0
  /\ exit_status (main_tinker.main (R:=B64) no_files argv_two) = 0
  /\ exit_status (main_lammps.main (R:=B64) no_files argv_two) = 0
  /\ exit_status (main_frcmod.main (R:=B64) no_files argv_two) = 0.
Proof. repeat split. Qed.

(** C8 (amended): each script, started with no argument or with more than
    one, prints its two usage lines and nothing else, and ends by
    [sys.exit()] without a code, which is exit status 0; no file is opened
    and no conversion function is called. *)
Theorem usage_and_exit (F : Type) (R : Runtime F)
    (fs : string -> option (list string)) (argv : list string) :
  length argv <> 2%nat ->
  (main_tinker.main fs argv = (tinker_usage, inl (SystemExit None))
   /\ exit_status (main_tinker.main fs argv) = 0)
  /\ (main_lammps.main fs argv = (lammps_usage, inl (SystemExit None))
      /\ exit_status (main_lammps.main fs argv) = 0)
  /\ (main_frcmod.main fs argv = (frcmod_usage, inl (SystemExit None))
      /\ exit_status (main_frcmod.main fs argv) = 0).
Proof.
  intros Hlen.
  assert (E : Nat.eqb (length argv) 2 = false) by now apply Nat.eqb_neq.
  unfold main_tinker.main, main_lammps.main, main_frcmod.main, exit_status.
  rewrite E. repeat split.
Qed.

(** [usage_and_exit] on a command line without argument. *)
Lemma usage_and_exit_witness :
  main_tinker.main (R:=B64) no_files argv_none
  = (tinker_usage, inl (SystemExit None))
  /\ main_lammps.main (R:=B64) no_files argv_none
     = (lammps_usage, inl (SystemExit None))
  /\ main_frcmod.main (R:=B64) no_files argv_none
     = (frcmod_usage, inl (SystemExit None)).
Proof.
  assert (H : length argv_none <> 2%nat) by (cbv; lia).
  destruct (usage_and_exit PrimFloat.float B64 no_files argv_none H)
    as [[Ht _] [[Hl _] [Hf _]]].
  repeat split; assumption.
Defined.

(* ================================================================== *)
(** * The multipole block (Tinker) *)
(* ================================================================== *)

Lemma multipole_is_no_other_kind (first : string) :
  startswith first "multipole" = true ->
  startswith first "#" = false /\ startswith first "bond" = false
  /\ startswith first "angle" = false /\ startswith first "strbnd" = false
  /\ startswith first "torsion" = false /\ startswith first "vdw" = false
  /\ startswith first "opbend" = false /\ startswith first "pitors" = false.
Proof.
  destruct first as [| c s]; [discriminate |].
  rewrite !startswith_cons. destruct (Ascii.eqb_spec "m" c) as [<- | _];
    [| discriminate].
  intros _. repeat split.
Qed.

Section Multipole.

Context {F : Type} {R : Runtime F}.

Lemma is_multipole_intro (first : string) (more : list string) :
  (2 <= length more)%nat ->
  startswith first "multipole" = true ->
  main_tinker.skipped (first :: more) = false
  /\ main_tinker.is_multipole (first :: more) = true.
Proof.
  intros Hlen Hm.
  destruct (multipole_is_no_other_kind first Hm)
    as (Hc & Hb & Ha & Hs & Ht & Hv & Ho & Hp).
  assert (Hsk : main_tinker.skipped (first :: more) = false).
  { unfold main_tinker.skipped. cbn [nth length]. rewrite Hc, orb_false_r.
    apply Nat.ltb_ge. lia. }
  split; [exact Hsk |].
  unfold main_tinker.is_multipole. rewrite Hsk. cbn [nth].
  now rewrite Hb, Ha, Hs, Ht, Hv, Ho, Hp, Hm.
Qed.

Lemma multipole_turn (line first : string) (more rest : list string) :
  split (strip line) = first :: more ->
  (2 <= length more)%nat ->
  startswith first "multipole" = true ->
  main_tinker.loop (line :: rest)
  = (main_tinker.print_record
       (tinker2omm._multipole
          (main_tinker.multipoles_list (first :: more) rest)) ;;;
     main_tinker.loop (main_tinker.after_multipole rest))%py.
Proof.
  intros Hs Hlen Hm.
  destruct (is_multipole_intro first more Hlen Hm) as [Hsk Him].
  destruct (multipole_is_no_other_kind first Hm)
    as (Hc & Hb & Ha & Hst & Ht & Hv & Ho & Hp).
  cbn [main_tinker.loop]. unfold main_tinker.resume, main_tinker.body.
  rewrite Hs, Him, Hsk. cbn [nth].
  now rewrite Hb, Ha, Hst, Ht, Hv, Ho, Hp, Hm.
Qed.

End Multipole.

(** C1, as stated, fails on the number of lines: on the multipole block of
    the docstring the script joins the header with the next four lines, 14
    tokens, and goes on after the fourth; the header with the next three
    lines is 11 tokens, on which [_multipole] raises. *)
Lemma multipole_three_lines_refuted :
  main_tinker.multipoles_list (split (strip multipole_header))
    (multipole_block ++ [vdw_line]) = multipole_tokens
  /\ length multipole_tokens = 14%nat
  /\ length (spec_multipoles_list (split (strip multipole_header))
               (multipole_block ++ [vdw_line])) = 11%nat
  /\ main_tinker.after_multipole (multipole_block ++ [vdw_line]) = [vdw_line]
  /\ spec_after_multipole (multipole_block ++ [vdw_line])
     = ["                                       -0.13195    0.00000    1.02962";
        vdw_line]
  /\ raised (tinker2omm._multipole (R:=B64)
               (spec_multipoles_list (split (strip multipole_header))
                  (multipole_block ++ [vdw_line]))) = true
  /\ raised (main_tinker.loop (R:=B64)
               (multipole_header :: multipole_block ++ [vdw_line])) = false
  /\ map is_record
       (stdout (main_tinker.loop (R:=B64)
                  (multipole_header :: multipole_block ++ [vdw_line])))
     = [true; true].
Proof. repeat split; vm_compute; reflexivity. Qed.

(** C1 (amended): on a line of at least three tokens whose first token
    starts with [multipole], the script reads the next four lines, joins the
    five token lists, header first, into one list, passes that list to
    [_multipole], prints the result, and goes on with the line after the
    fourth.  At the end of the file [readline] gives the empty line, which
    adds no token. *)
Theorem multipole_aggregation (F : Type) (R : Runtime F)
    (line first : string) (more : list string) :
  split (strip line) = first :: more ->
  (2 <= length more)%nat ->
  startswith first "multipole" = true ->
  (forall (l1 l2 l3 l4 : string) (rest : list string),
      main_tinker.loop (line :: l1 :: l2 :: l3 :: l4 :: rest)
      = (main_tinker.print_record
           (tinker2omm._multipole
              ((first :: more) ++ split (strip l1) ++ split (strip l2)
               ++ split (strip l3) ++ split (strip l4))) ;;;
         main_tinker.loop rest)%py)
  /\ (forall rest : list string,
      main_tinker.loop (line :: rest)
      = (main_tinker.print_record
           (tinker2omm._multipole
              (main_tinker.multipoles_list (first :: more) rest)) ;;;
         main_tinker.loop (main_tinker.after_multipole rest))%py)
  /\ main_tinker.multipoles_list (first :: more) [] = first :: more.
Proof.
  intros Hs Hlen Hm. split; [| split].
  - intros l1 l2 l3 l4 rest.
    now rewrite (multipole_turn line first more _ Hs Hlen Hm).
  - intros rest. now apply multipole_turn.
  - unfold main_tinker.multipoles_list. cbn. now rewrite app_nil_r.
Qed.

(** The multipole block of the docstring through [multipole_aggregation], in
    binary64: the five lines make the 14 tokens of the docstring, and the
    script goes on with the [vdw] line. *)
Lemma multipole_aggregation_witness :
  main_tinker.loop (R:=B64) (multipole_header :: multipole_block ++ [vdw_line])
  = (main_tinker.print_record
       (tinker2omm._multipole (R:=B64) multipole_tokens) ;;;
     main_tinker.loop (R:=B64) [vdw_line])%py.
Proof.
  assert (Hlen : (2 <= length ["7"; "44"; "10"; "-0.14168"])%nat) by (cbv; lia).
  destruct (multipole_aggregation PrimFloat.float B64 multipole_header
              "multipole" ["7"; "44"; "10"; "-0.14168"] eq_refl Hlen eq_refl)
    as [H4 _].
  exact (H4 _ _ _ _ [vdw_line]).
Defined.

(* ================================================================== *)
(** * Lines that are not converted *)
(* ================================================================== *)

Lemma emit_cons (acc : string) (l : list string) :
  is_empty acc = false -> emit acc l = acc :: l.
Proof. unfold emit. now intros ->. Qed.

Lemma split_from_acc (s acc : string) :
  is_empty acc = false -> split_from acc s <> [].
Proof.
  revert acc. induction s as [| c r IH]; intros acc Hacc.
  - cbn. now rewrite emit_cons.
  - cbn. destruct (is_space c).
    + now rewrite emit_cons.
    + apply IH. now destruct acc.
Qed.

Lemma split_of_token (c : ascii) (r : string) :
  is_space c = false -> split (String c r) <> [].
Proof.
  intros Hc. unfold split. cbn. rewrite Hc. now apply split_from_acc.
Qed.

Lemma lstrip_cases (s : string) :
  lstrip s = EmptyString
  \/ exists c r, lstrip s = String c r /\ is_space c = false.
Proof.
  induction s as [| c r IH]; [now left |].
  cbn. destruct (is_space c) eqn:Hc; [exact IH |].
  right. now exists c, r.
Qed.

(** A stripped line is empty or starts with a token. *)
Lemma strip_cases (s : string) :
  strip s = EmptyString
  \/ exists c r, strip s = String c r /\ is_space c = false.
Proof.
  unfold strip. destruct (lstrip_cases s) as [-> | (c & r & -> & Hc)];
    [now left |].
  right. exists c, (rstrip r). cbn. now rewrite Hc.
Qed.

Lemma split_strip (s : string) :
  strip s = EmptyString
  \/ exists first more, split (strip s) = first :: more
                        /\ (1 <=? len (strip s))%nat = true.
Proof.
  destruct (strip_cases s) as [H | (c & r & H & Hc)]; [now left |].
  right. rewrite H. pose proof (split_of_token c r Hc) as Hne.
  destruct (split (String c r)) as [| first more]; [contradiction |].
  now exists first, more.
Qed.

Section Unconverted.

Context {F : Type} {R : Runtime F}.



Lemma lammps_is_kind_other (line kind : string) :
  (forall first, nth_error (split (strip line)) 0 = Some first -> first <> kind) ->
  main_lammps.is_kind (F:=F) (strip line) kind = ret false.
Proof.
  intros Hk. unfold main_lammps.is_kind.
  destruct (split_strip line) as [-> | (first & more & Hs & Hlen)];
    [reflexivity |].
  rewrite Hlen, Hs, index_here, bind_ret_l.
  rewrite (eqb_differ first kind); [reflexivity |].
  apply Hk. now rewrite Hs.
Qed.

Lemma lammps_unknown_turn (line : string) :
  (forall first, nth_error (split (strip line)) 0 = Some first ->
     first <> "bond_coeff" /\ first <> "angle_coeff"
     /\ first <> "dihedral_coeff" /\ first <> "pair_coeff") ->
  main_lammps.body line
  = ([Line [VStr (main_lammps.CGREY ++ strip line ++ main_lammps.CEND)%string]],
     inr tt).
Proof.
  intros Hk. unfold main_lammps.body.
  rewrite !lammps_is_kind_other; autorewrite with py; try reflexivity;
    intros first Hf; now destruct (Hk first Hf) as (? & ? & ? & ?).
Qed.


End Unconverted.




(* ================================================================== *)
(** * Lines on which a conversion raises *)
(* ================================================================== *)

Section Failures.

Context {F : Type} {R : Runtime F}.








Lemma lammps_main_runs (fs : string -> option (list string))
    (script fname : string) (file : list string) :
  fs fname = Some file ->
  main_lammps.main fs [script; fname] = for_each main_lammps.body file.
Proof.
  intros Hfs. unfold main_lammps.main, open. cbn [length Nat.eqb].
  autorewrite with py. rewrite Hfs. now autorewrite with py.
Qed.

End Failures.




(* ================================================================== *)
(** * The blocks of an FRCMOD file *)
(* ================================================================== *)

Section Extract.

Variable component : string.

(** Before the header nothing is collected. *)
Lemma extract_before_header (pre rest llist : list string) :
  (forall l, In l pre -> startswith l component = false) ->
  main_frcmod.extract_loop component false 0 llist (pre ++ rest)
  = main_frcmod.extract_loop component false 0 llist rest.
Proof.
  induction pre as [| line pre IH]; intros Hn; [reflexivity |].
  cbn. rewrite (Hn line (or_introl eq_refl)). apply IH.
  intros l Hl. apply Hn. now right.
Qed.

Lemma strip_not_empty (l : string) :
  strip l <> EmptyString -> (0 <? len (strip l))%nat = true.
Proof. destruct (strip l); [contradiction | reflexivity]. Qed.

(** Inside the block every line that is not blank is collected, stripped. *)
Lemma extract_in_block (block rest llist : list string) :
  (forall l, In l block -> strip l <> EmptyString) ->
  main_frcmod.extract_loop component true 0 llist (block ++ rest)
  = main_frcmod.extract_loop component true 0 (llist ++ map strip block) rest.
Proof.
  revert llist. induction block as [| line block IH]; intros llist Hb.
  - cbn. now rewrite app_nil_r.
  - cbn [app main_frcmod.extract_loop map].
    rewrite (strip_not_empty line (Hb line (or_introl eq_refl))).
    rewrite IH by (intros l Hl; apply Hb; now right).
    now rewrite <- app_assoc.
Qed.

(** Once a block is closed the rest of the file adds nothing. *)
Lemma extract_after_block (rest llist : list string) (n : nat) :
  main_frcmod.extract_loop component false (S n) llist rest = llist.
Proof.
  induction rest as [| line rest IH]; [reflexivity |].
  cbn. destruct (startswith line component); [exact IH | reflexivity].
Qed.

(** Whatever is collected is a stripped, non-empty line of the file. *)
Lemma extract_collects (Q : string -> Prop) (file : list string) :
  (forall l, In l file -> strip l <> EmptyString -> Q (strip l)) ->
  forall (in_block : bool) (n : nat) (llist : list string),
    Forall Q llist ->
    Forall Q (main_frcmod.extract_loop component in_block n llist file).
Proof.
  induction file as [| line rest IH]; intros HQ in_block n llist Hl;
    [exact Hl |].
  assert (HQ' : forall l, In l rest -> strip l <> EmptyString -> Q (strip l))
    by (intros l Hin; apply HQ; now right).
  cbn. destruct in_block.
  - destruct (strip line) as [| c s] eqn:Hs; cbn.
    + now apply IH.
    + apply IH; [exact HQ' |]. apply Forall_app. split; [exact Hl |].
      constructor; [| constructor]. rewrite <- Hs.
      apply HQ; [now left |]. now rewrite Hs.
  - destruct (startswith line component), n; try exact Hl; now apply IH.
Qed.

End Extract.

(** X1: [extract] returns the first block of its kind: the lines that follow
    the first line starting with the header keyword, stripped, up to the
    first blank line or to the end of the file.  What follows the blank line
    is ignored, a second header of the same kind too. *)
Theorem extract_block (component header blank : string)
    (pre block post : list string) :
  (forall l, In l pre -> startswith l component = false) ->
  startswith header component = true ->
  (forall l, In l block -> strip l <> EmptyString) ->
  strip blank = EmptyString ->
  main_frcmod.extract_loop component false 0 []
    (pre ++ header :: block ++ blank :: post) = map strip block
  /\ main_frcmod.extract_loop component false 0 [] (pre ++ header :: block)
     = map strip block.
Proof.
  intros Hpre Hh Hb Hblank. split.
  - rewrite extract_before_header by exact Hpre.
    cbn [main_frcmod.extract_loop]. rewrite Hh. cbn [Nat.eqb].
    rewrite extract_in_block by exact Hb.
    cbn [main_frcmod.extract_loop app]. rewrite Hblank. cbn.
    apply extract_after_block.
  - rewrite extract_before_header by exact Hpre.
    cbn [main_frcmod.extract_loop]. rewrite Hh. cbn [Nat.eqb].
    rewrite <- (app_nil_r block) at 1.
    now rewrite extract_in_block by exact Hb.
Qed.

(** The bond block of [frcmod_file] through [extract_block]: two lines, the
    second header and its line are not read. *)
Lemma extract_block_witness :
  main_frcmod.extract_loop "BOND" false 0 [] frcmod_file
  = ["c3-h1  330.60   1.097"; "c3-n   328.70   1.462"].
Proof.
  refine (proj1 (extract_block "BOND" "BOND" "   "
                   ["Remark line goes here"; "MASS";
                    "c3 12.01         0.878"; ""]
                   ["c3-h1  330.60   1.097"; "  c3-n   328.70   1.462  "]
                   ["BOND"; "c3-c3  300.90   1.538"; ""; "ANGLE";
                    "c3-n -c3   63.030     115.640"] _ eq_refl _ eq_refl)).
  - intros l Hin. cbv [In] in Hin.
    repeat (destruct Hin as [<- | Hin]; [reflexivity |]). contradiction.
  - intros l Hin. cbv [In] in Hin.
    repeat (destruct Hin as [<- | Hin]; [vm_compute; discriminate |]).
    contradiction.
Defined.

(** X2: every line [extract] returns is non-empty and is the stripped form
    of a line of the file, for every file and every header keyword. *)
Theorem extract_invariant (component : string) (file : list string) :
  Forall (fun l => l <> EmptyString /\ In l (map strip file))
    (main_frcmod.extract_loop component false 0 [] file).
Proof.
  apply extract_collects; [| constructor].
  intros l Hin Hne. split; [exact Hne | now apply in_map].
Qed.

(* ================================================================== *)
(** * The dispatch of the Tinker script *)
(* ================================================================== *)

Lemma startswith_two (s p : string) (a b : ascii) :
  startswith s (String a (String b p)) = true ->
  exists r, s = String a (String b r) /\ startswith r p = true.
Proof.
  destruct s as [| c [| d r]]; cbn [startswith]; try discriminate.
  - now rewrite andb_false_r.
  - destruct (Ascii.eqb_spec a c) as [<- | _]; [| discriminate].
    destruct (Ascii.eqb_spec b d) as [<- | _]; [| discriminate].
    cbn [andb]. intros H. now exists r.
Qed.

Section Dispatch.

Context {F : Type} {R : Runtime F}.

Lemma not_skipped (toks : list string) :
  (3 <= length toks)%nat ->
  startswith (nth 0 toks "") "#" = false ->
  main_tinker.skipped toks = false.
Proof.
  intros Hlen Hc. unfold main_tinker.skipped. rewrite Hc, orb_false_r.
  apply Nat.ltb_ge. lia.
Qed.

(** The turn of a line whose first token starts with a keyword of [kinds]. *)
Lemma tinker_kind_turn (line : string) (rest : list string) (kw : string)
    (conv : list string -> M F (element F)) :
  In (kw, conv) kinds ->
  (3 <= length (split (strip line)))%nat ->
  startswith (nth 0 (split (strip line)) "") kw = true ->
  main_tinker.body line rest = main_tinker.print_record (conv (split (strip line)))
  /\ main_tinker.resume line rest = rest.
Proof.
  intros Hin Hlen Hkw.
  unfold main_tinker.body, main_tinker.resume, main_tinker.is_multipole.
  set (toks := split (strip line)) in *. set (first := nth 0 toks "") in *.
  cbv [kinds In] in Hin.
  repeat (destruct Hin as [Hin | Hin];
          [ injection Hin as <- <-;
            destruct (startswith_two _ _ _ _ Hkw) as (r & Hr & Hp);
            rewrite (not_skipped toks Hlen) by (fold first; now rewrite Hr);
            rewrite Hr; cbn [startswith Ascii.eqb Bool.eqb andb negb];
            rewrite ?Hp; cbn [andb negb]; now split
          | ]).
  contradiction.
Qed.

End Dispatch.

(** X3: in the Tinker script a line of at least three tokens whose first
    token starts with one of [bond], [angle], [strbnd], [torsion], [vdw],
    [opbend], [pitors], [polarize] is converted by the function of that
    keyword: when the conversion returns a record, the run prints what the
    conversion printed, then the record, then what the rest of the file
    gives; when it raises, the run ends there with that exception.  No two
    keywords can match the same token, so the order of the branches decides
    nothing. *)
Theorem tinker_dispatch (F : Type) (R : Runtime F)
    (line : string) (rest : list string) (kw : string)
    (conv : list string -> M F (element F)) :
  In (kw, conv) kinds ->
  (3 <= length (split (strip line)))%nat ->
  startswith (nth 0 (split (strip line)) "") kw = true ->
  (forall o e,
      conv (split (strip line)) = (o, inr e) ->
      main_tinker.loop (line :: rest)
      = (o ++ Rec e :: stdout (main_tinker.loop rest),
         outcome (main_tinker.loop rest)))
  /\ (forall o x,
      conv (split (strip line)) = (o, inl x) ->
      main_tinker.loop (line :: rest) = (o, inl x)).
Proof.
  intros Hin Hlen Hkw.
  destruct (tinker_kind_turn line rest kw conv Hin Hlen Hkw) as [Hb Hr].
  cbn [main_tinker.loop]. rewrite Hb, Hr. unfold main_tinker.print_record.
  split; intros o y Hc; rewrite Hc; cbn; [| reflexivity].
  destruct (main_tinker.loop rest) as [o' r]. cbn.
  now rewrite <- app_assoc.
Qed.

(** [tinker_dispatch] on the [vdw] line of the docstring followed by a
    comment, in binary64: the run prints the one record. *)
Lemma tinker_dispatch_witness :
  main_tinker.loop (R:=B64) [vdw_line; tinker_comment]
  = ([Rec (Element "Vdw"
             [("class", VStr "26");
              ("sigma", VNum ".4f" (PrimFloat.mul
                                      (Py.Binary64.of_decimal 38000 (-4))
                                      (Py.Binary64.of_decimal 1 (-1))));
              ("epsilon", VNum ".6f" (PrimFloat.mul
                                        (Py.Binary64.of_decimal 1010 (-4))
                                        (Py.Binary64.of_decimal 4184 (-3))));
              ("reduction", VNum "" (Py.Binary64.of_decimal 100 (-2)))])],
     inr tt).
Proof.
  assert (Hlen : (3 <= length (split (strip vdw_line)))%nat) by (cbv; lia).
  assert (Hin : In ("vdw", tinker2omm._vdw (R:=B64)) (kinds (R:=B64)))
    by (do 4 right; left; reflexivity).
  exact (proj1 (tinker_dispatch PrimFloat.float B64 vdw_line [tinker_comment]
                  "vdw" tinker2omm._vdw Hin Hlen eq_refl) [] _ eq_refl).
Defined.

(* ================================================================== *)
(** * What the conversions print *)
(* ================================================================== *)

Section Printing.

Context {F : Type} {R : Runtime F}.

Lemma bind_returned_inv {A B} (c : M F A) (k : A -> M F B) (b : B) :
  outcome (bind c k) = inr b ->
  exists a, outcome c = inr a /\ outcome (k a) = inr b
            /\ stdout (bind c k) = stdout c ++ stdout (k a).
Proof.
  destruct c as [o [e | a]]; cbn; [discriminate |].
  destruct (k a) as [o' r] eqn:Hk. cbn. intros ->. exists a.
  rewrite Hk. now repeat split.
Qed.

Lemma quiet_ret {A} (a : A) : quiet (F:=F) (ret a).
Proof. now intros ? _. Qed.

Lemma quiet_raise {A} (e : exn) : quiet (F:=F) (@raise F A e).
Proof. now intros ? _. Qed.

Lemma quiet_bind {A B} (c : M F A) (k : A -> M F B) :
  quiet c -> (forall a, quiet (k a)) -> quiet (bind c k).
Proof.
  intros Hc Hk b Hb.
  destruct (bind_returned_inv c k b Hb) as (a & Ha & Hka & ->).
  now rewrite (Hc a Ha), (Hk a b Hka).
Qed.

Lemma quiet_index {A} (l : list A) (n : nat) : quiet (index (F:=F) l n).
Proof. unfold index. destruct (nth_error l n); [apply quiet_ret | apply quiet_raise]. Qed.

Lemma quiet_float (s : string) : quiet (float s).
Proof. unfold float. destruct (float_of_string s); [apply quiet_ret | apply quiet_raise]. Qed.

Lemma quiet_int (s : string) : quiet (int s).
Proof. unfold int. destruct (int_of_string s); [apply quiet_ret | apply quiet_raise]. Qed.

Lemma quiet_int_f (x : F) : quiet (int_f x).
Proof. unfold int_f. destruct (int_of_float x); [apply quiet_raise | apply quiet_ret]. Qed.

Lemma quiet_div (x y : F) : quiet (div x y).
Proof. unfold div. destruct (fis_zero y); [apply quiet_raise | apply quiet_ret]. Qed.

(** Printing and then raising never returns. *)
Lemma quiet_complaint {A} (l1 l2 : out_line F) (e : exn) :
  quiet (print l1 ;;; print l2 ;;; @raise F A e)%py.
Proof. intros a H. discriminate H. Qed.

End Printing.

(** Decomposes a conversion into its steps, none of which prints. *)
Ltac quiet_steps :=
  repeat first
    [ apply quiet_ret | apply quiet_raise | apply quiet_index
    | apply quiet_float | apply quiet_int | apply quiet_int_f
    | apply quiet_div | apply quiet_complaint
    | apply quiet_bind; [| intros ?]
    | match goal with |- quiet (if ?b then _ else _) => destruct b end ].

Section TinkerPrinting.

Context {F : Type} {R : Runtime F}.

Lemma quiet_moments (llist : list string) (i : nat) :
  quiet (tinker2omm.moments llist i).
Proof. unfold tinker2omm.moments. quiet_steps. Qed.

Lemma quiet_multipole (llist : list string) :
  quiet (tinker2omm._multipole llist).
Proof.
  unfold tinker2omm._multipole.
  repeat first
    [ apply quiet_moments | apply quiet_ret | apply quiet_raise
    | apply quiet_index | apply quiet_bind; [| intros ?]
    | match goal with |- quiet (if ?b then _ else _) => destruct b end ].
Qed.

Lemma quiet_kinds (kw : string) (conv : list string -> M F (element F))
    (llist : list string) :
  In (kw, conv) kinds -> quiet (conv llist).
Proof.
  intros Hin. cbv [kinds In] in Hin.
  repeat (destruct Hin as [Hin | Hin]; [injection Hin as <- <- |]);
    [.. | contradiction].
  - unfold tinker2omm._bond. quiet_steps.
  - unfold tinker2omm._angle. quiet_steps.
  - unfold tinker2omm._strbend. quiet_steps.
  - unfold tinker2omm._torsion. quiet_steps.
  - unfold tinker2omm._vdw. quiet_steps.
  - unfold tinker2omm._opbend. quiet_steps.
  - unfold tinker2omm._pitors. quiet_steps.
  - unfold tinker2omm._polarize. quiet_steps.
Qed.

(** A printed conversion that returns has printed one line, the record. *)
Lemma print_record_one (c : M F (element F)) :
  quiet c ->
  outcome (main_tinker.print_record c) = inr tt ->
  exists e, stdout (main_tinker.print_record c) = [Rec e].
Proof.
  intros Hq Hr. unfold main_tinker.print_record in *.
  destruct (bind_returned_inv _ _ _ Hr) as (e & He & _ & ->).
  rewrite (Hq e He). now exists e.
Qed.

(** A turn that returns has printed nothing, a record, or a skipped line. *)
Lemma tinker_turn_one (line : string) (rest : list string) :
  outcome (main_tinker.body line rest) = inr tt ->
  main_tinker.body line rest = ret tt
  \/ (exists e, stdout (main_tinker.body line rest) = [Rec e])
  \/ main_tinker.body line rest = print (main_tinker.skipping line).
Proof.
  unfold main_tinker.body.
  repeat match goal with
         | |- context [if ?b then _ else _] => destruct b
         end;
    intros H; auto; right; left; apply print_record_one; trivial;
    first [ apply quiet_multipole
          | eapply quiet_kinds; cbv [kinds In]; eauto 10 ].
Qed.

Lemma resume_shorter (line : string) (rest : list string) :
  (length (main_tinker.resume line rest) <= length rest)%nat.
Proof.
  unfold main_tinker.resume, main_tinker.after_multipole.
  destruct (main_tinker.is_multipole _); [| lia].
  destruct rest as [| l1 [| l2 [| l3 [| l4 r]]]]; cbn; lia.
Qed.

Lemma tinker_loop_lines (n : nat) :
  forall file : list string,
    (length file <= n)%nat ->
    outcome (main_tinker.loop file) = inr tt ->
    (length (stdout (main_tinker.loop file)) <= length file)%nat.
Proof.
  induction n as [| n IH]; intros file Hlen Hout;
    destruct file as [| line rest]; cbn [length] in Hlen;
    try (cbn; lia); try lia.
  cbn [main_tinker.loop] in *.
  destruct (bind_returned_inv _ _ _ Hout) as ([] & Hb & Hl & ->).
  rewrite length_app.
  pose proof (resume_shorter line rest) as Hs.
  pose proof (IH (main_tinker.resume line rest) ltac:(lia) Hl) as Hrest.
  destruct (tinker_turn_one line rest Hb) as [-> | [[e ->] | ->]]; cbn; lia.
Qed.

End TinkerPrinting.

(** X4: a Tinker conversion prints nothing when it returns a record (only
    the branches that complain about the number of tokens print, and they
    raise), and a run of the Tinker loop that reaches the end of the file has
    printed at most one line for each line of the file. *)
Theorem tinker_output_bound (F : Type) (R : Runtime F) :
  (forall (kw : string) (conv : list string -> M F (element F))
          (llist : list string) (e : element F),
      In (kw, conv) kinds ->
      outcome (conv llist) = inr e -> stdout (conv llist) = [])
  /\ (forall (llist : list string) (e : element F),
      outcome (tinker2omm._multipole llist) = inr e ->
      stdout (tinker2omm._multipole llist) = [])
  /\ (forall file : list string,
      outcome (main_tinker.loop file) = inr tt ->
      (length (stdout (main_tinker.loop file)) <= length file)%nat).
Proof.
  split; [| split].
  - intros kw conv llist e Hin. now apply (quiet_kinds kw).
  - intros llist e. apply quiet_multipole.
  - intros file. now apply (tinker_loop_lines (length file)).
Qed.

(** [tinker_output_bound] on the multipole block followed by the [vdw] line,
    in binary64: six lines of input, two lines of output. *)
Lemma tinker_output_bound_witness :
  (length (stdout (main_tinker.loop (R:=B64)
                     (multipole_header :: multipole_block ++ [vdw_line])))
   <= 6)%nat.
Proof.
  exact (proj2 (proj2 (tinker_output_bound PrimFloat.float B64))
           (multipole_header :: multipole_block ++ [vdw_line]) eq_refl).
Defined.

Section AllOrNothing.

Context {F : Type} {R : Runtime F}.

Lemma silent_index {A} (l : list A) (n : nat) : stdout (index (F:=F) l n) = [].
Proof. unfold index. now destruct (nth_error l n). Qed.

Lemma silent_float (s : string) : stdout (float s) = [].
Proof. unfold float. now destruct (float_of_string s). Qed.

Lemma silent_int (s : string) : stdout (int s) = [].
Proof. unfold int. now destruct (int_of_string s). Qed.

Lemma silent_int_f (x : F) : stdout (int_f x) = [].
Proof. unfold int_f. now destruct (int_of_float x). Qed.

Lemma silent_div (x y : F) : stdout (div x y) = [].
Proof. unfold div. now destruct (fis_zero y). Qed.

Lemma all_or_nothing_bind {A} (c : M F A) (k : A -> M F (element F)) :
  stdout c = [] ->
  (forall a, all_or_nothing (k a)) ->
  all_or_nothing (bind c k).
Proof.
  destruct c as [o [x | a]]; cbn; intros -> Hk.
  - right. now exists x.
  - destruct (Hk a) as [[e ->] | [x ->]]; [left; now exists e | right; now exists x].
Qed.

Lemma all_or_nothing_print (e : element F) :
  all_or_nothing (print (Rec e) ;;; ret e)%py.
Proof. left. now exists e. Qed.

End AllOrNothing.

Ltac all_or_nothing_steps :=
  repeat first
    [ apply all_or_nothing_print
    | apply all_or_nothing_bind;
      [ first [ apply silent_index | apply silent_float | apply silent_int
              | apply silent_int_f | apply silent_div ]
      | intros ? ] ].

(** X5: on every line, each conversion of [frcmod2omm.py] and the bond,
    angle and dihedral conversions of [lammps2omm.py] either print exactly
    the record they return, or print nothing and raise: no part of a record
    is printed for a line whose conversion fails. *)
Theorem record_all_or_nothing (F : Type) (R : Runtime F) (line : string) :
  all_or_nothing (frcmod2omm._bond line)
  /\ all_or_nothing (frcmod2omm._angle line)
  /\ all_or_nothing (frcmod2omm._dihedral line)
  /\ all_or_nothing (frcmod2omm._improper line)
  /\ all_or_nothing (frcmod2omm._nonbonding line)
  /\ all_or_nothing (lammps2omm._bond line)
  /\ all_or_nothing (lammps2omm._angle line)
  /\ all_or_nothing (lammps2omm._dihedral line).
Proof.
  repeat split.
  - unfold frcmod2omm._bond. all_or_nothing_steps.
  - unfold frcmod2omm._angle. all_or_nothing_steps.
  - unfold frcmod2omm._dihedral. all_or_nothing_steps.
  - unfold frcmod2omm._improper. all_or_nothing_steps.
  - unfold frcmod2omm._nonbonding. all_or_nothing_steps.
  - unfold lammps2omm._bond. all_or_nothing_steps.
  - unfold lammps2omm._angle. all_or_nothing_steps.
  - unfold lammps2omm._dihedral. all_or_nothing_steps.
Qed.

(* ================================================================== *)
(** * Records of variable length (Tinker) *)
(* ================================================================== *)

(** X6: a Tinker [vdw] record of four tokens gets the reduction 1.00; with
    exactly five tokens the fifth is the reduction, unchanged; with six or
    more tokens the fifth is ignored and the reduction is 1.00 again.  Sigma
    is multiplied by 0.1 and epsilon by 4.184. *)
Theorem tinker_vdw_reduction (F : Type) (R : Runtime F)
    (kw cls ts te : string) (sigma epsilon : F) :
  float_of_string ts = Some sigma ->
  float_of_string te = Some epsilon ->
  tinker2omm._vdw [kw; cls; ts; te]
  = ret (vdw_record cls sigma epsilon (VNum "" (lit 100 (-2))))
  /\ (forall red,
        tinker2omm._vdw [kw; cls; ts; te; red]
        = ret (vdw_record cls sigma epsilon (VStr red)))
  /\ (forall red next more,
        tinker2omm._vdw (kw :: cls :: ts :: te :: red :: next :: more)
        = ret (vdw_record cls sigma epsilon (VNum "" (lit 100 (-2))))).
Proof.
  intros Hs He. repeat split; intros; unfold tinker2omm._vdw;
    cbn [length Nat.eqb]; run; reflexivity.
Qed.

(** [tinker_vdw_reduction] on the [vdw] record of the docstring, in
    binary64. *)
Lemma tinker_vdw_reduction_witness :
  tinker2omm._vdw (R:=B64) ["vdw"; "26"; "3.8000"; "0.1010"]
  = ret (vdw_record (R:=B64) "26" (Py.Binary64.of_decimal 38000 (-4))
           (Py.Binary64.of_decimal 1010 (-4))
           (VNum "" (Py.Binary64.of_decimal 100 (-2))))
  /\ tinker2omm._vdw (R:=B64) ["vdw"; "26"; "3.8000"; "0.1010"; "0.910"]
     = ret (vdw_record (R:=B64) "26" (Py.Binary64.of_decimal 38000 (-4))
              (Py.Binary64.of_decimal 1010 (-4)) (VStr "0.910")).
Proof.
  destruct (tinker_vdw_reduction PrimFloat.float B64 "vdw" "26" "3.8000"
              "0.1010" (Py.Binary64.of_decimal 38000 (-4))
              (Py.Binary64.of_decimal 1010 (-4)) eq_refl eq_refl)
    as [H4 [H5 _]].
  split; [exact H4 | exact (H5 "0.910")].
Defined.

(** X7: a Tinker [polarize] record with up to three group identifiers after
    the damping factor gives the record with the polarizability multiplied
    by 0.001, the damping factor unchanged and the groups as [pgrp1] to
    [pgrp3]; with four or more groups the conversion prints a complaint and
    the token list, and raises. *)
Theorem tinker_polarize_groups (F : Type) (R : Runtime F)
    (kw type tp thole : string) (groups : list string) (p : F) :
  float_of_string tp = Some p ->
  ((length groups <= 3)%nat ->
   tinker2omm._polarize (kw :: type :: tp :: thole :: groups)
   = ret (polarize_record type p thole groups))
  /\ ((3 < length groups)%nat ->
      tinker2omm._polarize (kw :: type :: tp :: thole :: groups)
      = ([Line [VStr "error in polarize parameters"];
          ListRepr (kw :: type :: tp :: thole :: groups)],
         inl UnboundLocalError)).
Proof.
  intros Hp. split; intros Hlen; unfold tinker2omm._polarize; run;
    cbn [skipn length].
  - destruct groups as [| g1 [| g2 [| g3 [| g4 gs]]]];
      cbn [length Nat.eqb] in *; run; try reflexivity. lia.
  - destruct groups as [| g1 [| g2 [| g3 [| g4 gs]]]];
      cbn [length] in Hlen; try lia.
    cbn [length Nat.eqb]. reflexivity.
Qed.

(** [tinker_polarize_groups] on the [polarize] record of the docstring and
    on the same record with a fourth group, in binary64. *)
Lemma tinker_polarize_groups_witness :
  tinker2omm._polarize (R:=B64)
    ["polarize"; "253"; "1.7500"; "0.3900"; "252"; "254"; "257"]
  = ret (polarize_record (R:=B64) "253" (Py.Binary64.of_decimal 17500 (-4))
           "0.3900" ["252"; "254"; "257"])
  /\ raised (tinker2omm._polarize (R:=B64)
               ["polarize"; "253"; "1.7500"; "0.3900"; "252"; "254"; "257";
                "258"]) = true.
Proof.
  split.
  - apply (proj1 (tinker_polarize_groups PrimFloat.float B64 "polarize" "253"
                    "1.7500" "0.3900" ["252"; "254"; "257"]
                    (Py.Binary64.of_decimal 17500 (-4)) eq_refl)).
    cbv. lia.
  - rewrite (proj2 (tinker_polarize_groups PrimFloat.float B64 "polarize"
                      "253" "1.7500" "0.3900" ["252"; "254"; "257"; "258"]
                      (Py.Binary64.of_decimal 17500 (-4)) eq_refl)).
    + reflexivity.
    + cbv. lia.
Defined.

(** X8: a multipole aggregate of 14 tokens gives a record with the frame
    attributes [kz] and [kx] and no [ky]; one of 15 tokens gives [kz], [kx]
    and [ky]; in both the charge is unchanged, the three dipole components
    are multiplied by [bohr * 0.1] and the six quadrupole components by
    [0.01 * bohr * bohr / 3]. *)
Theorem tinker_multipole_frames (F : Type) (R : Runtime F)
    (kw atom kz kx t0 t1 t2 t3 t4 t5 t6 t7 t8 t9 : string)
    (c0 d1 d2 d3 q11 q21 q22 q31 q32 q33 : F) :
  float_of_string t0 = Some c0 ->
  float_of_string t1 = Some d1 -> float_of_string t2 = Some d2 ->
  float_of_string t3 = Some d3 ->
  float_of_string t4 = Some q11 -> float_of_string t5 = Some q21 ->
  float_of_string t6 = Some q22 -> float_of_string t7 = Some q31 ->
  float_of_string t8 = Some q32 -> float_of_string t9 = Some q33 ->
  let ms := multipole_moments c0 d1 d2 d3 q11 q21 q22 q31 q32 q33 in
  (tinker2omm._multipole
     [kw; atom; kz; kx; t0; t1; t2; t3; t4; t5; t6; t7; t8; t9]
   = ret (Element "Multipole"
            ([("type", VStr atom); ("kz", VStr kz); ("kx", VStr kx)] ++ ms))
   /\ attr "ky" (Element "Multipole"
                   ([("type", VStr atom); ("kz", VStr kz); ("kx", VStr kx)]
                    ++ ms)) = None)
  /\ (forall ky,
        tinker2omm._multipole
          [kw; atom; kz; kx; ky; t0; t1; t2; t3; t4; t5; t6; t7; t8; t9]
        = ret (Element "Multipole"
                 ([("type", VStr atom); ("kz", VStr kz); ("kx", VStr kx);
                   ("ky", VStr ky)] ++ ms))).
Proof.
  intros H0 H1 H2 H3 H4 H5 H6 H7 H8 H9 ms.
  split; [split; [| reflexivity] | intros ky];
    unfold tinker2omm._multipole, tinker2omm.moments;
    cbn [length Nat.eqb Nat.add]; run; reflexivity.
Qed.

(** [tinker_multipole_frames] on the two multipoles of the docstring, in
    binary64; the moments of the first are those of the docstring. *)
Lemma tinker_multipole_frames_witness :
  (exists e, tinker2omm._multipole (R:=B64) multipole_tokens = ret e
             /\ attr "ky" e = None
             /\ (near (number "d1" e) 4066197670806 (-15)
                 && near (number "d3" e) 2247309769440 (-14)
                 && near (number "q11" e) 7165929777951 (-17)
                 && near (number "q22" e) (-1032735840436) (-15)
                 && near (number "q33" e) 9610765426565 (-16)) = true)
  /\ (exists e, tinker2omm._multipole (R:=B64) multipole_tokens_ky = ret e
                /\ attr "ky" e = Some (VStr "-191")
                /\ number "c0" e = Some (Py.Binary64.of_decimal 28761 (-5))).
Proof.
  pose (d := Py.Binary64.of_decimal).
  destruct (tinker_multipole_frames PrimFloat.float B64 "multipole" "7" "44"
              "10" "-0.14168" "0.07684" "0.00000" "0.42468" "0.07677"
              "0.00000" "-1.10639" "-0.13195" "0.00000" "1.02962"
              (d (-14168) (-5)) (d 7684 (-5)) (d 0 (-5)) (d 42468 (-5))
              (d 7677 (-5)) (d 0 (-5)) (d (-110639) (-5)) (d (-13195) (-5))
              (d 0 (-5)) (d 102962 (-5))
              eq_refl eq_refl eq_refl eq_refl eq_refl eq_refl eq_refl eq_refl
              eq_refl eq_refl) as [[H14 _] _].
  destruct (tinker_multipole_frames PrimFloat.float B64 "multipole" "189"
              "190" "-191" "0.28761" "0.34263" "0.00000" "0.97464" "-0.69101"
              "0.00000" "0.85372" "-0.23783" "0.00000" "-0.16271"
              (d 28761 (-5)) (d 34263 (-5)) (d 0 (-5)) (d 97464 (-5))
              (d (-69101) (-5)) (d 0 (-5)) (d 85372 (-5)) (d (-23783) (-5))
              (d 0 (-5)) (d (-16271) (-5))
              eq_refl eq_refl eq_refl eq_refl eq_refl eq_refl eq_refl eq_refl
              eq_refl eq_refl) as [_ H15].
  split.
  - eexists. split; [exact H14 |]. split; [reflexivity | vm_compute; reflexivity].
  - eexists. split; [exact (H15 "-191") |]. split; reflexivity.
Defined.

(* ================================================================== *)
(** * The LAMMPS script and its pair and dihedral lines *)
(* ================================================================== *)

Lemma split_gives_length (s first : string) (more : list string) :
  split s = first :: more -> (1 <=? len s)%nat = true.
Proof. destruct s; [discriminate | reflexivity]. Qed.

Section LammpsScript.

Context {F : Type} {R : Runtime F}.

Lemma lammps_is_kind_first (line first kind : string) (more : list string) :
  split (strip line) = first :: more ->
  main_lammps.is_kind (F:=F) (strip line) kind = ret (String.eqb first kind).
Proof.
  intros Hs. unfold main_lammps.is_kind.
  rewrite (split_gives_length _ _ _ Hs), Hs. now autorewrite with py.
Qed.

Lemma lammps_echo (file : list string) :
  (forall line, In line file ->
     forall first, nth_error (split (strip line)) 0 = Some first ->
       first <> "bond_coeff" /\ first <> "angle_coeff"
       /\ first <> "dihedral_coeff" /\ first <> "pair_coeff") ->
  for_each main_lammps.body file
  = (map (fun line =>
            Line [VStr (main_lammps.CGREY ++ strip line ++ main_lammps.CEND)%string])
       file, inr tt).
Proof.
  induction file as [| line rest IH]; intros Hk; [reflexivity |].
  cbn [for_each map].
  rewrite (lammps_unknown_turn line (Hk line (or_introl eq_refl))).
  rewrite IH by (intros l Hl; apply Hk; now right). reflexivity.
Qed.

End LammpsScript.

(** X9: the LAMMPS script passes a line to a conversion exactly when the
    first token of the stripped line is [bond_coeff], [angle_coeff],
    [dihedral_coeff] or [pair_coeff], the whole token and not a prefix of
    it; the conversion is given the stripped line and the script prints
    nothing of its own.  Every other line, the empty line included, is
    printed stripped between the grey escape codes. *)
Theorem lammps_dispatch (F : Type) (R : Runtime F) (line : string) :
  main_lammps.body line
  = match split (strip line) with
    | first :: _ =>
        if String.eqb first "bond_coeff" then
          value_unused (lammps2omm._bond (strip line))
        else if String.eqb first "angle_coeff" then
          value_unused (lammps2omm._angle (strip line))
        else if String.eqb first "dihedral_coeff" then
          value_unused (lammps2omm._dihedral (strip line))
        else if String.eqb first "pair_coeff" then
          value_unused (lammps2omm._nonbonding (strip line))
        else
          ([Line [VStr (String "027" "[90m" ++ strip line
                        ++ String "027" "[0m")%string]], inr tt)
    | [] =>
        ([Line [VStr (String "027" "[90m" ++ strip line
                      ++ String "027" "[0m")%string]], inr tt)
    end.
Proof.
  assert (Hv : forall A (c : M F A), (c ;;; ret tt)%py = value_unused c).
  { intros A [o [x | a]]; unfold value_unused; cbn;
      [reflexivity | now rewrite app_nil_r]. }
  unfold main_lammps.body.
  destruct (split_strip line) as [He | (first & more & Hs & Hlen)].
  - rewrite He. reflexivity.
  - rewrite !(lammps_is_kind_first line first _ more Hs), Hs.
    autorewrite with py.
    destruct (String.eqb first "bond_coeff"); [apply Hv |].
    autorewrite with py.
    destruct (String.eqb first "angle_coeff"); [apply Hv |].
    autorewrite with py.
    destruct (String.eqb first "dihedral_coeff"); [apply Hv |].
    autorewrite with py.
    destruct (String.eqb first "pair_coeff"); [apply Hv |].
    reflexivity.
Qed.

(** [lammps_dispatch] on the dihedral line of the docstring, which goes to
    the dihedral conversion, and on a line whose first token has the keyword
    [bond_coeff] as a proper prefix, which is printed in grey; in
    binary64. *)
Lemma lammps_dispatch_witness :
  main_lammps.body (R:=B64) lammps_dihedral_line
  = value_unused (lammps2omm._dihedral (R:=B64) lammps_dihedral_line)
  /\ main_lammps.body (R:=B64) "bond_coeffs 1 330.6 1.097"
     = ([Line [VStr (String "027" "[90mbond_coeffs 1 330.6 1.097"
                     ++ String "027" "[0m")%string]], inr tt).
Proof.
  split.
  - exact (lammps_dispatch PrimFloat.float B64 lammps_dihedral_line).
  - exact (lammps_dispatch PrimFloat.float B64 "bond_coeffs 1 330.6 1.097").
Defined.

(** X10: the LAMMPS script given a file in which no line starts with one of
    the four coefficient keywords prints every line of the file, stripped,
    between the grey escape codes, in the order of the file, and ends
    normally. *)
Theorem lammps_file_echo (F : Type) (R : Runtime F)
    (fs : string -> option (list string)) (script fname : string)
    (file : list string) :
  fs fname = Some file ->
  (forall line, In line file ->
     forall first, nth_error (split (strip line)) 0 = Some first ->
       first <> "bond_coeff" /\ first <> "angle_coeff"
       /\ first <> "dihedral_coeff" /\ first <> "pair_coeff") ->
  main_lammps.main fs [script; fname]
  = (map (fun line =>
            Line [VStr (main_lammps.CGREY ++ strip line ++ main_lammps.CEND)%string])
       file, inr tt)
  /\ exit_status (main_lammps.main fs [script; fname]) = 0.
Proof.
  intros Hfs Hk. rewrite (lammps_main_runs fs script fname file Hfs).
  rewrite (lammps_echo file Hk). now split.
Qed.

(** [lammps_file_echo] on a file of a comment, an empty line and a
    [pair_style] line, in binary64. *)
Lemma lammps_file_echo_witness :
  stdout (main_lammps.main (R:=B64) fs_plain ["script.py"; "lig.param"])
  = [Line [VStr (main_lammps.CGREY ++ "# parameters of the ligand"
                 ++ main_lammps.CEND)%string];
     Line [VStr (main_lammps.CGREY ++ main_lammps.CEND)%string];
     Line [VStr (main_lammps.CGREY ++ "pair_style lj/charmm/coul/long 9.0 10.0"
                 ++ main_lammps.CEND)%string]].
Proof.
  destruct (lammps_file_echo PrimFloat.float B64 fs_plain "script.py"
              "lig.param" lammps_plain_file eq_refl) as [Hrun _].
  - intros line Hin. cbv [lammps_plain_file In] in Hin.
    repeat (destruct Hin as [<- | Hin];
            [intros first Hf; vm_compute in Hf;
             try discriminate; injection Hf as <-;
             repeat split; discriminate |]).
    contradiction.
  - now rewrite Hrun.
Defined.

(** X11: a [pair_coeff] line of the documented layout whose style does not
    start with [lj], and that is not a same-type [buck] line, is printed in
    grey, once, and gives no record: the conversion returns the empty
    string. *)
Theorem pair_other_styles (F : Type) (R : Runtime F)
    (line l0 t1 t2 style l4 l5 : string) (ls : list string)
    (epsilon sigma : F) :
  split line = l0 :: t1 :: t2 :: style :: l4 :: l5 :: ls ->
  float_of_string l4 = Some epsilon ->
  float_of_string l5 = Some sigma ->
  startswith style "lj" = false ->
  t1 <> t2 \/ startswith style "buck" = false ->
  lammps2omm._nonbonding line
  = ([Line [VStr (String "027" "[90m" ++ strip line
                  ++ String "027" "[0m")%string]],
     inr lammps2omm.Empty).
Proof.
  intros Hl He Hs Hlj Hother. unfold lammps2omm._nonbonding. run.
  rewrite Hlj, !andb_false_r.
  assert (Hb : String.eqb t1 t2 && startswith style "buck" = false).
  { destruct Hother as [Hne | Hb]; [now rewrite (eqb_differ _ _ Hne) |].
    now rewrite Hb, andb_false_r. }
  rewrite Hb, !bind_print. run. reflexivity.
Qed.

(** [pair_other_styles] on a [buck] line of mixed types, in binary64. *)
Lemma pair_other_styles_witness :
  lammps2omm._nonbonding (R:=B64) lammps_mixed_buck_line
  = ([Line [VStr (String "027" "[90m" ++ lammps_mixed_buck_line
                  ++ String "027" "[0m")%string]],
     inr lammps2omm.Empty).
Proof.
  refine (pair_other_styles PrimFloat.float B64 lammps_mixed_buck_line
            "pair_coeff" "1" "2" "buck/coul/long" "1388.77" "0.3623"
            ["175.0"; "#"; "pb-hn"] (Py.Binary64.of_decimal 138877 (-2))
            (Py.Binary64.of_decimal 3623 (-4))
            eq_refl eq_refl eq_refl eq_refl _).
  left. discriminate.
Defined.

(** X12: a LAMMPS [dihedral_coeff] line whose periodicity or phase token is
    not an integer literal for [int] makes the conversion raise [ValueError]
    before anything is printed; the token [180.0] is such a token. *)
Theorem lammps_dihedral_needs_integers (F : Type) (R : Runtime F)
    (line l0 l1 l2 l3 l4 l5 l6 l7 : string) (ls : list string) (k : F) :
  split line = l0 :: l1 :: l2 :: l3 :: l4 :: l5 :: l6 :: l7 :: ls ->
  float_of_string l2 = Some k ->
  int_of_string l3 = None
  \/ (exists n, int_of_string l3 = Some n) /\ int_of_string l4 = None ->
  lammps2omm._dihedral line = raise ValueError.
Proof.
  intros Hl Hk [H3 | [[n H3] H4]]; unfold lammps2omm._dihedral; run.
  - unfold int. now rewrite H3.
  - unfold int at 1. rewrite H4. reflexivity.
Qed.

(** [lammps_dihedral_needs_integers] on the dihedral line of the docstring
    with the phase written [180.0], in binary64. *)
Lemma lammps_dihedral_needs_integers_witness :
  int_of_string (Runtime:=B64) "180.0" = None
  /\ lammps2omm._dihedral (R:=B64) lammps_dihedral_decimal = raise ValueError.
Proof.
  split; [reflexivity |].
  refine (lammps_dihedral_needs_integers PrimFloat.float B64
            lammps_dihedral_decimal "dihedral_coeff" "1" "0.15559999999999999"
            "3" "180.0" "0.00000000" "#" "hx-c3-n4-hn" []
            (Py.Binary64.of_decimal 15559999999999999 (-17))
            eq_refl eq_refl _).
  right. split; [now exists 3 | reflexivity].
Defined.

(** X13: an FRCMOD dihedral line whose divide-by-factor reads as zero makes
    the conversion raise [ZeroDivisionError] before anything is printed. *)
Theorem frcmod_dihedral_zero_divisor (F : Type) (R : Runtime F)
    (line t1 t2 t3 t4 p0 p1 p2 p3 : string) (ts ps : list string)
    (idivf pk phase pn : F) :
  split (replace hyphen blank (take 11 line)) = t1 :: t2 :: t3 :: t4 :: ts ->
  split (drop 11 line) = p0 :: p1 :: p2 :: p3 :: ps ->
  float_of_string p0 = Some idivf ->
  float_of_string p1 = Some pk ->
  float_of_string p2 = Some phase ->
  float_of_string p3 = Some pn ->
  fis_zero idivf = true ->
  frcmod2omm._dihedral line = raise ZeroDivisionError.
Proof.
  intros Ha Hp H0 H1 H2 H3 Hz. unfold frcmod2omm._dihedral. run.
  unfold div. now rewrite Hz.
Qed.

(** [frcmod_dihedral_zero_divisor] on the dihedral line of the docstring with
    the divisor 0, in binary64. *)
Lemma frcmod_dihedral_zero_divisor_witness :
  frcmod2omm._dihedral (R:=B64) frcmod_dihedral_zero = raise ZeroDivisionError.
Proof.
  exact (frcmod_dihedral_zero_divisor PrimFloat.float B64 frcmod_dihedral_zero
           "h1" "c3" "n" "c3" "0" "0.000" "0.000" "2.000" [] []
           (Py.Binary64.of_decimal 0 0) (Py.Binary64.of_decimal 0 (-3))
           (Py.Binary64.of_decimal 0 (-3)) (Py.Binary64.of_decimal 2000 (-3))
           eq_refl eq_refl eq_refl eq_refl eq_refl eq_refl eq_refl).
Defined.

(* ================================================================== *)
(** * Tokens *)
(* ================================================================== *)

Lemma split_from_lstrip (s : string) :
  split_from EmptyString (lstrip s) = split_from EmptyString s.
Proof.
  induction s as [| c r IH]; [reflexivity |].
  cbn. destruct (is_space c) eqn:Hc; [exact IH |].
  cbn. now rewrite Hc.
Qed.

Lemma split_from_rstrip (s : string) :
  forall acc, split_from acc (rstrip s) = split_from acc s.
Proof.
  induction s as [| c r IH]; intros acc; [reflexivity |].
  cbn [rstrip]. destruct (is_space c) eqn:Hc; cbn [andb].
  - destruct (is_empty (rstrip r)) eqn:He.
    + cbn [split_from]. rewrite Hc. rewrite <- (IH EmptyString).
      destruct (rstrip r); [reflexivity | discriminate].
    + cbn [split_from]. now rewrite Hc, IH.
  - cbn [split_from]. now rewrite Hc, IH.
Qed.

Lemma split_from_tokens (s : string) :
  forall acc, Forall (fun t => t <> EmptyString) (split_from acc s).
Proof.
  induction s as [| c r IH]; intros acc; cbn [split_from].
  - unfold emit. destruct acc; cbn; repeat constructor. discriminate.
  - destruct (is_space c); [| apply IH].
    unfold emit. destruct acc; cbn; [apply IH |].
    constructor; [discriminate | apply IH].
Qed.

(** X14: splitting a stripped line gives the tokens of the line itself, so
    [line.strip().split()] of the Tinker script is [line.split()], and the
    conversions of the LAMMPS script, which split the stripped line again,
    see the tokens of the line; no token is the empty string. *)
Theorem split_ignores_strip (s : string) :
  split (strip s) = split s
  /\ Forall (fun t => t <> EmptyString) (split s).
Proof.
  split; [| apply split_from_tokens].
  unfold split, strip. now rewrite split_from_rstrip, split_from_lstrip.
Qed.

(* ================================================================== *)
(** * Bonds and atoms across the dialects *)
(* ================================================================== *)

Section MoreConversions.

Context {F : Type} {R : Runtime F}.

Lemma lammps_bond_general (line l0 l1 l2 l3 l4 l5 t1 t2 : string)
    (ls ts : list string) (k r : F) :
  split line = l0 :: l1 :: l2 :: l3 :: l4 :: l5 :: ls ->
  split_on hyphen l5 = t1 :: t2 :: ts ->
  float_of_string l2 = Some k ->
  float_of_string l3 = Some r ->
  lammps2omm._bond line
  = ([Rec (lammps_bond_record t1 t2 k r)], inr (lammps_bond_record t1 t2 k r)).
Proof.
  intros Hl Ht Hk Hr. unfold lammps2omm._bond. run. reflexivity.
Qed.

Lemma tinker_bond_general (kw c1 c2 tk tr : string) (more : list string)
    (k r : F) :
  float_of_string tk = Some k ->
  float_of_string tr = Some r ->
  tinker2omm._bond (kw :: c1 :: c2 :: tk :: tr :: more)
  = ret (tinker_bond_record c1 c2 k r).
Proof.
  intros Hk Hr. unfold tinker2omm._bond. run. reflexivity.
Qed.

Lemma frcmod_nonbonding_general (line t l1 l2 : string) (ls : list string)
    (rmin2 epsilon : F) :
  split line = t :: l1 :: l2 :: ls ->
  float_of_string l1 = Some rmin2 ->
  float_of_string l2 = Some epsilon ->
  frcmod2omm._nonbonding line
  = ([Rec (frcmod_atom_record t rmin2 epsilon)],
     inr (frcmod_atom_record t rmin2 epsilon)).
Proof.
  intros Hl Hr He. unfold frcmod2omm._nonbonding. run. reflexivity.
Qed.

End MoreConversions.

Lemma Qred_mult_comm (x y : Q) : Qred (x * y) = Qred (y * x).
Proof. apply Qred_complete, Qmult_comm. Qed.

(** Unfolds the exact runtime and its decimal constants. *)
Ltac exact_arith :=
  unfold fmul, fdiv, float_of_int, lit, pi, sixth_root_of_two, QQ,
    Py.Exact.runtime;
  repeat match goal with
         | |- context [Py.Exact.of_decimal ?m ?e] =>
             let v := eval vm_compute in (Py.Exact.of_decimal m e) in
             change (Py.Exact.of_decimal m e) with v
         | |- context [Qred (Qmake ?n ?d)] =>
             let v := eval vm_compute in (Qred (Qmake n d)) in
             change (Qred (Qmake n d)) with v
         end;
  rewrite ?Qred_correct.

(** X15: the three bond conversions on the same constant [k] and length [r]:
    each returns its record on a line of its layout; in exact arithmetic
    the FRCMOD and the LAMMPS record are the same, their constant is twice
    the constant of the Tinker record, and the three lengths are equal. *)
Theorem bond_conventions :
  (forall (F : Type) (R : Runtime F)
          (line l0 l1 l2 l3 l4 l5 t1 t2 : string) (ls ts : list string)
          (k r : F),
      split line = l0 :: l1 :: l2 :: l3 :: l4 :: l5 :: ls ->
      split_on hyphen l5 = t1 :: t2 :: ts ->
      float_of_string l2 = Some k ->
      float_of_string l3 = Some r ->
      lammps2omm._bond line
      = ([Rec (lammps_bond_record t1 t2 k r)],
         inr (lammps_bond_record t1 t2 k r)))
  /\ (forall (F : Type) (R : Runtime F) (kw c1 c2 tk tr : string)
             (more : list string) (k r : F),
      float_of_string tk = Some k ->
      float_of_string tr = Some r ->
      tinker2omm._bond (kw :: c1 :: c2 :: tk :: tr :: more)
      = ret (tinker_bond_record c1 c2 k r))
  /\ (forall (t1 t2 : string) (k r : Q),
      lammps_bond_record (R:=QQ) t1 t2 k r = bond_record (R:=QQ) t1 t2 k r)
  /\ (forall (t1 t2 c1 c2 : string) (k r : Q),
      exists kf kt,
        number "k" (bond_record (R:=QQ) t1 t2 k r) = Some kf
        /\ number "k" (tinker_bond_record (R:=QQ) c1 c2 k r) = Some kt
        /\ kf == (2 # 1) * kt
        /\ number "length" (bond_record (R:=QQ) t1 t2 k r)
           = number "length" (tinker_bond_record (R:=QQ) c1 c2 k r)).
Proof.
  split; [| split; [| split]].
  - intros. eapply lammps_bond_general; eassumption.
  - intros. now apply tinker_bond_general.
  - intros t1 t2 k r. unfold lammps_bond_record, bond_record.
    unfold fmul at 3 7, QQ, Py.Exact.runtime.
    now rewrite (Qred_mult_comm k).
  - intros t1 t2 c1 c2 k r. eexists. eexists.
    split; [reflexivity |]. split; [reflexivity |]. split; [| reflexivity].
    exact_arith. field.
Qed.

(** [bond_conventions] on the bond lines of the two docstrings. *)
Lemma bond_conventions_witness :
  stdout (lammps2omm._bond (R:=B64) lammps_bond_line)
  = [Rec (lammps_bond_record (R:=B64) "c3" "hx"
            (Py.Binary64.of_decimal 33869999999999999 (-14))
            (Py.Binary64.of_decimal 10910000000000000 (-16)))]
  /\ tinker2omm._bond (R:=B64) tinker_bond_tokens
     = ret (tinker_bond_record (R:=B64) "6" "16"
              (Py.Binary64.of_decimal 34100 (-2))
              (Py.Binary64.of_decimal 11120 (-4))).
Proof.
  destruct bond_conventions as [Hl [Ht _]].
  split.
  - rewrite (Hl PrimFloat.float B64 lammps_bond_line "bond_coeff" "1"
               "338.69999999999999" "1.0910000000000000" "#" "c3-hx" "c3" "hx"
               [] [] (Py.Binary64.of_decimal 33869999999999999 (-14))
               (Py.Binary64.of_decimal 10910000000000000 (-16))
               eq_refl eq_refl eq_refl eq_refl).
    reflexivity.
  - exact (Ht PrimFloat.float B64 "bond" "6" "16" "341.00" "1.1120" []
             (Py.Binary64.of_decimal 34100 (-2))
             (Py.Binary64.of_decimal 11120 (-4)) eq_refl eq_refl).
Defined.

(** X16: an FRCMOD [NONBON] line of an atom type, [rmin/2] and [epsilon]
    gives the atom record with the charge left as [XXXX], sigma
    [0.1 * 2 * rmin2 / 2 ** (1/6)] and epsilon [4.184 * epsilon]; further
    tokens on the line are ignored. *)
Theorem frcmod_nonbonding_conversion (F : Type) (R : Runtime F)
    (line t l1 l2 : string) (ls : list string) (rmin2 epsilon : F) :
  split line = t :: l1 :: l2 :: ls ->
  float_of_string l1 = Some rmin2 ->
  float_of_string l2 = Some epsilon ->
  frcmod2omm._nonbonding line
  = ([Rec (frcmod_atom_record t rmin2 epsilon)],
     inr (frcmod_atom_record t rmin2 epsilon))
  /\ attr "charge" (frcmod_atom_record t rmin2 epsilon) = Some (VStr "XXXX").
Proof.
  intros Hl Hr He. split; [| reflexivity].
  now apply frcmod_nonbonding_general with (l1 := l1) (l2 := l2) (ls := ls).
Qed.

(** [frcmod_nonbonding_conversion] on the line of the docstring, in binary64:
    sigma is 0.339966951 and epsilon 0.4577296, within [10 ^ -9]. *)
Lemma frcmod_nonbonding_conversion_witness :
  stdout (frcmod2omm._nonbonding (R:=B64) frcmod_nonbon_line)
  = [Rec (frcmod_atom_record (R:=B64) "c3"
            (Py.Binary64.of_decimal 19080 (-4))
            (Py.Binary64.of_decimal 1094 (-4)))]
  /\ (near (number "sigma" (frcmod_atom_record (R:=B64) "c3"
                              (Py.Binary64.of_decimal 19080 (-4))
                              (Py.Binary64.of_decimal 1094 (-4))))
           3399669508 (-10)
      && near (number "epsilon" (frcmod_atom_record (R:=B64) "c3"
                                   (Py.Binary64.of_decimal 19080 (-4))
                                   (Py.Binary64.of_decimal 1094 (-4))))
              4577296 (-7)) = true.
Proof.
  destruct (frcmod_nonbonding_conversion PrimFloat.float B64
              frcmod_nonbon_line "c3" "1.9080" "0.1094" []
              (Py.Binary64.of_decimal 19080 (-4))
              (Py.Binary64.of_decimal 1094 (-4)) eq_refl eq_refl eq_refl)
    as [Hrun _].
  split; [now rewrite Hrun | vm_compute; reflexivity].
Defined.

(* ================================================================== *)
(** * Angle records of other lengths (Tinker) *)
(* ================================================================== *)

(** X19: a Tinker angle record whose token count is not 6, 8 or 9 (7 tokens,
    or 10 and more) prints the complaint and the token list and then raises
    [UnboundLocalError]: no record is returned. *)
Theorem tinker_angle_other_count (F : Type) (R : Runtime F)
    (llist : list string) :
  length llist <> 6%nat -> length llist <> 8%nat -> length llist <> 9%nat ->
  tinker2omm._angle llist
  = ([Line [VStr "something wrong with AMOEBA angles!"]; ListRepr llist],
     inl UnboundLocalError).
Proof.
  intros H6 H8 H9. unfold tinker2omm._angle.
  apply Nat.eqb_neq in H6, H8, H9. now rewrite H6, H8, H9.
Qed.

(** [tinker_angle_other_count] on the angle of the docstring with a seventh
    token, in binary64. *)
Lemma tinker_angle_other_count_witness :
  raised (tinker2omm._angle (R:=B64)
            ["angle"; "53"; "54"; "54"; "69.20"; "114.00"; "1"]) = true.
Proof.
  rewrite (tinker_angle_other_count PrimFloat.float B64
             ["angle"; "53"; "54"; "54"; "69.20"; "114.00"; "1"]);
    [reflexivity | cbv; lia ..].
Defined.

(* ================================================================== *)
(** * A run of the FRCMOD script *)
(* ================================================================== *)

Section FrcmodRun.

Context {F : Type} {R : Runtime F}.

Lemma frcmod_steps_all_or_nothing (line : string) :
  all_or_nothing (frcmod2omm._bond line)
  /\ all_or_nothing (frcmod2omm._angle line)
  /\ all_or_nothing (frcmod2omm._dihedral line)
  /\ all_or_nothing (frcmod2omm._improper line)
  /\ all_or_nothing (frcmod2omm._nonbonding line).
Proof.
  repeat split.
  - unfold frcmod2omm._bond. all_or_nothing_steps.
  - unfold frcmod2omm._angle. all_or_nothing_steps.
  - unfold frcmod2omm._dihedral. all_or_nothing_steps.
  - unfold frcmod2omm._improper. all_or_nothing_steps.
  - unfold frcmod2omm._nonbonding. all_or_nothing_steps.
Qed.

(** A loop over conversions that returns has printed, in order, the record
    of each item. *)
Lemma for_each_records (f : string -> M F (element F)) (l : list string) :
  (forall item, all_or_nothing (f item)) ->
  outcome (for_each f l) = inr tt ->
  exists es, Forall2 (fun item e => f item = ([Rec e], inr e)) l es
             /\ stdout (for_each f l) = map Rec es.
Proof.
  intros Hf. induction l as [| item rest IH]; intros Hout.
  - exists []. now split.
  - cbn [for_each] in *.
    destruct (bind_returned_inv _ _ _ Hout) as (e & He & Hrest & ->).
    destruct (IH Hrest) as (es & HF & Hs).
    destruct (Hf item) as [[e' Hi] | [x Hi]]; rewrite Hi in *; [| discriminate].
    exists (e' :: es). split; [now constructor |].
    cbn. now rewrite Hs.
Qed.

Lemma frcmod_main_runs (fs : string -> option (list string))
    (script fname : string) (file : list string) :
  fs fname = Some file ->
  let block c := main_frcmod.extract_loop c false 0 [] file in
  main_frcmod.main fs [script; fname]
  = (for_each frcmod2omm._bond (block "BOND") ;;;
     print (Line [VStr ""]) ;;;
     for_each frcmod2omm._angle (block "ANGLE") ;;;
     print (Line [VStr ""]) ;;;
     for_each frcmod2omm._dihedral (block "DIHE") ;;;
     print (Line [VStr ""]) ;;;
     for_each frcmod2omm._improper (block "IMPROPER") ;;;
     print (Line [VStr ""]) ;;;
     for_each frcmod2omm._nonbonding (block "NONBON") ;;;
     print (Line [VStr ""]))%py.
Proof.
  intros Hfs block. unfold main_frcmod.main, main_frcmod.extract, open.
  cbn [length Nat.eqb]. autorewrite with py. rewrite Hfs.
  now autorewrite with py.
Qed.

End FrcmodRun.

(** X20: a run of the FRCMOD script that ends normally has printed, in this
    order, the records of the lines of the [BOND] block and an empty line,
    those of the [ANGLE] block and an empty line, those of the [DIHE] block
    and an empty line, those of the [IMPROPER] block and an empty line,
    those of the [NONBON] block and an empty line, and nothing else; each
    record is the one its conversion printed and returned for that line. *)
Theorem frcmod_run_output (F : Type) (R : Runtime F)
    (fs : string -> option (list string)) (script fname : string)
    (file : list string) :
  fs fname = Some file ->
  outcome (main_frcmod.main fs [script; fname]) = inr tt ->
  let block c := main_frcmod.extract_loop c false 0 [] file in
  exists eb ea ed ei en : list (element F),
    Forall2 (fun item e => frcmod2omm._bond item = ([Rec e], inr e))
            (block "BOND") eb
    /\ Forall2 (fun item e => frcmod2omm._angle item = ([Rec e], inr e))
               (block "ANGLE") ea
    /\ Forall2 (fun item e => frcmod2omm._dihedral item = ([Rec e], inr e))
               (block "DIHE") ed
    /\ Forall2 (fun item e => frcmod2omm._improper item = ([Rec e], inr e))
               (block "IMPROPER") ei
    /\ Forall2 (fun item e => frcmod2omm._nonbonding item = ([Rec e], inr e))
               (block "NONBON") en
    /\ stdout (main_frcmod.main fs [script; fname])
       = map Rec eb ++ Line [VStr ""]
         :: map Rec ea ++ Line [VStr ""]
         :: map Rec ed ++ Line [VStr ""]
         :: map Rec ei ++ Line [VStr ""]
         :: map Rec en ++ [Line [VStr ""]].
Proof.
  intros Hfs Hout block. subst block.
  rewrite (frcmod_main_runs fs script fname file Hfs) in *.
  cbv zeta in Hout |- *.
  destruct (bind_returned_inv _ _ _ Hout) as ([] & Hb & Hout1 & ->).
  rewrite bind_print in Hout1 |- *. cbn [stdout outcome fst snd] in Hout1 |- *.
  destruct (bind_returned_inv _ _ _ Hout1) as ([] & Ha & Hout2 & ->).
  rewrite bind_print in Hout2 |- *. cbn [stdout outcome fst snd] in Hout2 |- *.
  destruct (bind_returned_inv _ _ _ Hout2) as ([] & Hd & Hout3 & ->).
  rewrite bind_print in Hout3 |- *. cbn [stdout outcome fst snd] in Hout3 |- *.
  destruct (bind_returned_inv _ _ _ Hout3) as ([] & Hi & Hout4 & ->).
  rewrite bind_print in Hout4 |- *. cbn [stdout outcome fst snd] in Hout4 |- *.
  destruct (bind_returned_inv _ _ _ Hout4) as ([] & Hn & _ & ->).
  destruct (for_each_records frcmod2omm._bond _
              (fun item => proj1 (frcmod_steps_all_or_nothing item)) Hb)
    as (eb & HFb & ->).
  destruct (for_each_records frcmod2omm._angle _
              (fun item => proj1 (proj2 (frcmod_steps_all_or_nothing item))) Ha)
    as (ea & HFa & ->).
  destruct (for_each_records frcmod2omm._dihedral _
              (fun item =>
                 proj1 (proj2 (proj2 (frcmod_steps_all_or_nothing item)))) Hd)
    as (ed & HFd & ->).
  destruct (for_each_records frcmod2omm._improper _
              (fun item =>
                 proj1 (proj2 (proj2 (proj2
                   (frcmod_steps_all_or_nothing item))))) Hi)
    as (ei & HFi & ->).
  destruct (for_each_records frcmod2omm._nonbonding _
              (fun item =>
                 proj2 (proj2 (proj2 (proj2
                   (frcmod_steps_all_or_nothing item))))) Hn)
    as (en & HFn & ->).
  exists eb, ea, ed, ei, en. repeat (split; [assumption |]).
  reflexivity.
Qed.

(** [frcmod_run_output] on [frcmod_file], in binary64: the records of the two
    lines of the first bond block, an empty line, the record of the angle
    line and four empty lines. *)
Lemma frcmod_run_output_witness :
  (exists eb ea ed ei en : list (element PrimFloat.float),
      Forall2 (fun item e => frcmod2omm._bond (R:=B64) item = ([Rec e], inr e))
              (main_frcmod.extract_loop "BOND" false 0 [] frcmod_file) eb
      /\ Forall2 (fun item e =>
                    frcmod2omm._angle (R:=B64) item = ([Rec e], inr e))
                 (main_frcmod.extract_loop "ANGLE" false 0 [] frcmod_file) ea
      /\ Forall2 (fun item e =>
                    frcmod2omm._dihedral (R:=B64) item = ([Rec e], inr e))
                 (main_frcmod.extract_loop "DIHE" false 0 [] frcmod_file) ed
      /\ Forall2 (fun item e =>
                    frcmod2omm._improper (R:=B64) item = ([Rec e], inr e))
                 (main_frcmod.extract_loop "IMPROPER" false 0 [] frcmod_file) ei
      /\ Forall2 (fun item e =>
                    frcmod2omm._nonbonding (R:=B64) item = ([Rec e], inr e))
                 (main_frcmod.extract_loop "NONBON" false 0 [] frcmod_file) en
      /\ stdout (main_frcmod.main (R:=B64) fs_frcmod
                   ["script.py"; "lig.frcmod"])
         = map Rec eb ++ Line [VStr ""]
           :: map Rec ea ++ Line [VStr ""]
           :: map Rec ed ++ Line [VStr ""]
           :: map Rec ei ++ Line [VStr ""]
           :: map Rec en ++ [Line [VStr ""]])
  /\ stdout (main_frcmod.main (R:=B64) fs_frcmod ["script.py"; "lig.frcmod"])
     = [Rec (bond_record (R:=B64) "c3" "h1"
               (Py.Binary64.of_decimal 33060 (-2))
               (Py.Binary64.of_decimal 1097 (-3)));
        Rec (bond_record (R:=B64) "c3" "n"
               (Py.Binary64.of_decimal 32870 (-2))
               (Py.Binary64.of_decimal 1462 (-3)));
        Line [VStr ""];
        Rec (angle_record (R:=B64) "c3" "n" "c3"
               (Py.Binary64.of_decimal 63030 (-3))
               (Py.Binary64.of_decimal 115640 (-3)));
        Line [VStr ""]; Line [VStr ""]; Line [VStr ""]; Line [VStr ""]].
Proof.
  split.
  - exact (frcmod_run_output PrimFloat.float B64 fs_frcmod "script.py"
             "lig.frcmod" frcmod_file eq_refl eq_refl).
  - vm_compute. reflexivity.
Defined.
